(** * GraphRAG core of the rag-service, and the completion wrapper of the
      lightrag-service: a shallow embedding and its properties.

    Sources embedded here:
    - [term2/lection6/rag-service/graph_rag.py], class [GraphRAG];
    - [term2/lection06/rag-service/app.py], the endpoints that call it;
    - [term2/lection06/lightrag-service/app.py], [lmstudio_completion_func]
      and the indexing endpoints.

    Conventions of the embedding.
    - A Python [str] is a [string]; the Cyrillic literals of the source are
      kept as they are written in the source file.  Slices ([s[:n]]) and
      [len] count the elements of the [string].
    - A Python [float] is a rational ([Q]); [round(x, 4)] and the [.2%]
      format round half to even on the exact value.
    - An exception is its message ([exn := string]); every [except] clause
      of the embedded code catches [Exception], so the class is not kept.
    - The embedding backend, the chat backend and the storage engine are
      outside the repository: they are the fields of a [World], and every
      call that ingest, query and delete make to them is recorded in the
      trace of the state. *)

From Stdlib Require Import ZArith QArith Qround Lqa String Ascii List Sorted DecimalString Lia.
From stdpp Require Import base option list gmap strings fin_maps.

Local Open Scope string_scope.

(** ** Text *)

Module Text.

(** [kw in s] of Python, by scanning [s] for a position where [kw] is a
    prefix. *)
Fixpoint contains (kw s : string) : bool :=
  if String.prefix kw s then true
  else match s with
       | EmptyString => false
       | String _ s' => contains kw s'
       end.

(** [s[:n]]. *)
Fixpoint take (n : nat) (s : string) : string :=
  match n, s with
  | S n', String c s' => String c (take n' s')
  | _, _ => EmptyString
  end.

(** [s.replace(old, new)] for a one-character [old]. *)
Fixpoint replace_char (old : ascii) (new : string) (s : string) : string :=
  match s with
  | EmptyString => EmptyString
  | String c s' =>
      if Ascii.eqb c old then new +:+ replace_char old new s'
      else String c (replace_char old new s')
  end.

(** [sep.join(parts)]. *)
Fixpoint join (sep : string) (parts : list string) : string :=
  match parts with
  | [] => EmptyString
  | [p] => p
  | p :: rest => p +:+ sep +:+ join sep rest
  end.

(** The characters [str.strip()] removes, among the single-byte ones. *)
Definition is_space (c : ascii) : bool :=
  let n := nat_of_ascii c in
  ((9 <=? n) && (n <=? 13) || (28 <=? n) && (n <=? 32))%nat.

Fixpoint lstrip (s : string) : string :=
  match s with
  | String c s' => if is_space c then lstrip s' else s
  | EmptyString => EmptyString
  end.

Fixpoint rstrip (s : string) : string :=
  match s with
  | EmptyString => EmptyString
  | String c s' =>
      match rstrip s' with
      | EmptyString => if is_space c then EmptyString else String c EmptyString
      | t => String c t
      end
  end.

Definition strip (s : string) : string := rstrip (lstrip s).

(** [str.lower()] on the letters A-Z; the other characters are left as
    they are.  The properties of the completion function are stated for
    any lowering function; this one runs the examples. *)
Definition lower_char (c : ascii) : ascii :=
  let n := nat_of_ascii c in
  if ((65 <=? n) && (n <=? 90))%nat then ascii_of_nat (n + 32) else c.

Fixpoint ascii_lower (s : string) : string :=
  match s with
  | EmptyString => EmptyString
  | String c s' => String (lower_char c) (ascii_lower s')
  end.

(** [str(n)] of an integer. *)
Definition str_of_Z (z : Z) : string := NilZero.string_of_int (Z.to_int z).

Definition str_of_nat (n : nat) : string :=
  NilZero.string_of_uint (Nat.to_uint n).

(** [kw] occurs in [s]: what [contains] is checked against. *)
Definition occurs_in (kw s : string) : Prop :=
  exists pre post, s = pre +:+ kw +:+ post.

End Text.

(** ** Numbers *)

Module Num.

(** Rounding to the nearest integer, ties to the even one. *)
Definition round_half_even (q : Q) : Z :=
  let f := Qfloor q in
  match (q - inject_Z f) ?= (1 # 2) with
  | Lt => f
  | Gt => (f + 1)%Z
  | Eq => if Z.even f then f else (f + 1)%Z
  end%Q.

(** [round(x, 4)]. *)
Definition round4 (x : Q) : Q :=
  inject_Z (round_half_even (x * 10000)) / 10000.

(** Two digits, zero padded. *)
Definition two_digits (z : Z) : string :=
  (if (z <? 10)%Z then "0" else "") +:+ Text.str_of_Z z.

(** [f"{x:.2%}"]: the value times one hundred with two decimals and a
    percent sign; the sign is the one of [x], also when it rounds to
    zero. *)
Definition format_percent (x : Q) : string :=
  let n := Z.abs (round_half_even (x * 100 * 100)) in
  (if Qlt_le_dec x 0 then "-" else "")
    +:+ Text.str_of_Z (n / 100) +:+ "." +:+ two_digits (n mod 100) +:+ "%".

End Num.

(** ** lightrag-service: the completion function *)

Module Completion.

Inductive message := Message (role : string) (content : string).

Definition extraction_keywords : list string :=
  ["extract"; "entity"; "relation"; "entity"; "relationship"; "knowledge"].

Definition strict_directive : string :=
  String "010" (String "010" "КРИТИЧЕСКИ ВАЖНО: ") +:+
  "Извлекайте ТОЛЬКО информацию, которая ЯВНО и ДОСЛОВНО присутствует в предоставленном тексте. " +:+
  "НЕ используйте ваши знания из обучающих данных. " +:+
  "НЕ добавляйте информацию, которой нет в тексте. " +:+
  "НЕ придумывайте факты, события или отношения. " +:+
  "Если информация отсутствует в тексте, НЕ извлекайте её.".

Section WithLower.

(** [str.lower] of the Python runtime. *)
Variable lower : string -> string.

(** The test of the [if any(keyword in prompt_lower ...)] line. *)
Definition looks_like_extraction (system_prompt : string) : bool :=
  let prompt_lower := lower system_prompt in
  existsb (fun keyword => Text.contains keyword prompt_lower) extraction_keywords.

Definition strict_system_prompt (system_prompt : string) : string :=
  if looks_like_extraction system_prompt
  then system_prompt +:+ strict_directive
  else system_prompt.

(** The [messages] list [lmstudio_completion_func] sends: a system message
    when [system_prompt] is given and not empty ([if system_prompt:]), then
    the user message. *)
Definition build_messages (prompt : string) (system_prompt : option string)
  : list message :=
  (match system_prompt with
   | Some sp =>
       if bool_decide (sp = "") then []
       else [Message "system" (strict_system_prompt sp)]
   | None => []
   end) ++ [Message "user" prompt].

End WithLower.

End Completion.

(** ** rag-service: the GraphRAG class *)

Module GraphRAG.

Import Completion.

(** *** Data *)

Definition exn := string.

Inductive result (A : Type) :=
| Ok (a : A)
| Raise (e : exn).
Arguments Ok {A} a.
Arguments Raise {A} e.

(** A value of a metadata mapping: a [str], or a value of another type,
    kept with the name of its type and its [str()] rendering. *)
Inductive pyval :=
| PStr (s : string)
| POther (type_name : string) (rendering : string).

Definition py_str (v : pyval) : string :=
  match v with
  | PStr s => s
  | POther _ r => r
  end.

(** A row of table [documents]; [embedding] and [metadata] are nullable. *)
Record Document := {
  doc_id : Z;
  doc_content : string;
  doc_embedding : option (list Q);
  doc_metadata : option (gmap string pyval)
}.

(** A row of table [document_nodes]. *)
Record DocumentNode := {
  dn_document_id : Z;
  dn_node_id : Z;
  dn_node_type : string;
  dn_properties : gmap string pyval
}.

(** A vertex of graph [knowledge_graph], with the properties
    [_create_graph_nodes] gives it. *)
Record GraphNode := {
  gn_id : Z;
  gn_label : string;
  gn_doc_id : Z;
  gn_preview : string;
  gn_source : string;
  gn_length : nat
}.

Record GraphEdge := {
  ge_start : Z;
  ge_type : string;
  ge_end : Z
}.

Record Database := {
  documents : list Document;
  document_nodes : list DocumentNode;
  graph_nodes : list GraphNode;
  graph_edges : list GraphEdge
}.

(** A row of the similarity search: [doc[0]], [doc[1]], [doc[2]],
    [doc[3]]. *)
Record SearchRow := {
  row_id : Z;
  row_content : string;
  row_metadata : option (gmap string pyval);
  row_similarity : Q
}.

(** A row of the graph lookup: [d], [type(r)], [related]. *)
Record GraphRow := {
  grow_doc : GraphNode;
  grow_rel_type : option string;
  grow_related : option Z
}.

Record Source := {
  src_id : Z;
  src_content : string;
  src_similarity : Q;
  src_metadata : option (gmap string pyval)
}.

Record GraphContext := {
  nodes_found : nat;
  has_relationships : bool;
  sample_nodes : nat
}.

Record QueryResult := {
  answer : string;
  sources : list Source;
  graph_context : option GraphContext
}.

(** The statements the class sends to the session, with their bound
    parameters. *)
Inductive statement :=
| InsertDocument (content : string) (embedding : list Q) (dims : nat)
    (metadata : gmap string pyval)
| CypherCreateDocument (id : Z) (preview source : string) (length : nat)
| InsertDocumentNode (id node_id : Z) (props : gmap string pyval)
| SelectSimilar (embedding : list Q) (dims : nat) (threshold : Q) (limit : Z)
| CypherMatchRelated (doc_ids : list Z)
| DeleteDocument (id : Z)
| Commit.

Inductive call :=
| CallEmbeddings (model input : string)
| CallChat (model : string) (messages : list message)
| CallSql (q : statement).

Inductive level := INFO | WARNING | ERROR.

(** The attributes [__init__] reads from the environment. *)
Record Config := {
  embedding_model_name : string;
  llm_model_name : string;
  embedding_dimensions : nat
}.

(** What lies outside the repository: the two LMStudio endpoints, the
    errors the storage engine answers a statement with, and the [<=>]
    operator of pgvector. *)
Record World := {
  embeddings_create : string -> string -> result (list Q);
  chat_completions_create : string -> list message -> result string;
  storage_fault : Database -> statement -> option exn;
  cosine_distance : list Q -> list Q -> Q
}.

(** [committed] is what a new session sees, [working] the view of the open
    session, [next_id] the sequence of [documents.id].  [aborted] tells
    that a statement of the open transaction has failed: the storage engine
    is PostgreSQL, which then refuses every further statement of the
    transaction and ends it by a rollback, also when it is asked to
    commit. *)
Record State := {
  committed : Database;
  working : Database;
  aborted : bool;
  next_id : Z;
  log : list (level * string);
  trace : list call
}.

Definition set_working (db : Database) (s : State) : State :=
  {| committed := committed s; working := db; aborted := aborted s;
     next_id := next_id s; log := log s; trace := trace s |}.

Definition set_committed (db : Database) (s : State) : State :=
  {| committed := db; working := working s; aborted := aborted s;
     next_id := next_id s; log := log s; trace := trace s |}.

Definition set_aborted (b : bool) (s : State) : State :=
  {| committed := committed s; working := working s; aborted := b;
     next_id := next_id s; log := log s; trace := trace s |}.

Definition set_next_id (n : Z) (s : State) : State :=
  {| committed := committed s; working := working s; aborted := aborted s;
     next_id := n; log := log s; trace := trace s |}.

Definition add_log (l : level) (msg : string) (s : State) : State :=
  {| committed := committed s; working := working s; aborted := aborted s;
     next_id := next_id s; log := log s ++ [(l, msg)]; trace := trace s |}.

Definition add_call (c : call) (s : State) : State :=
  {| committed := committed s; working := working s; aborted := aborted s;
     next_id := next_id s; log := log s; trace := trace s ++ [c] |}.

(** *** The monad of the methods: state, and an exception or a value *)

Definition M (A : Type) : Type := State -> result A * State.

Definition ret {A} (a : A) : M A := fun s => (Ok a, s).

Definition raise {A} (e : exn) : M A := fun s => (Raise e, s).

Definition bind {A B} (m : M A) (k : A -> M B) : M B :=
  fun s =>
    match m s with
    | (Ok a, s') => k a s'
    | (Raise e, s') => (Raise e, s')
    end.

(** [try: m except Exception as e: h e]. *)
Definition try_except {A} (m : M A) (h : exn -> M A) : M A :=
  fun s =>
    match m s with
    | (Ok a, s') => (Ok a, s')
    | (Raise e, s') => h e s'
    end.

(** [try: m finally: f]. *)
Definition try_finally {A} (m : M A) (f : M unit) : M A :=
  fun s =>
    match m s with
    | (r, s') =>
        match f s' with
        | (Ok _, s'') => (r, s'')
        | (Raise e, s'') => (Raise e, s'')
        end
    end.

Declare Scope py_scope.
Delimit Scope py_scope with py.
Notation "x <- c1 ;; c2" := (bind c1 (fun x => c2))
  (at level 100, c1 at next level, right associativity) : py_scope.
Notation "c1 ;; c2" := (bind c1 (fun _ => c2))
  (at level 100, right associativity) : py_scope.
Local Open Scope py_scope.

Definition logger_info (msg : string) : M unit :=
  fun s => (Ok tt, add_log INFO msg s).
Definition logger_warning (msg : string) : M unit :=
  fun s => (Ok tt, add_log WARNING msg s).
Definition logger_error (msg : string) : M unit :=
  fun s => (Ok tt, add_log ERROR msg s).

(** *** The storage engine *)

(** Stable insertion sort by ascending key: [ORDER BY key]. *)
Fixpoint insert_by {A} (key : A -> Q) (x : A) (l : list A) : list A :=
  match l with
  | [] => [x]
  | y :: l' =>
      if Qle_bool (key x) (key y) then x :: y :: l'
      else y :: insert_by key x l'
  end.

Definition order_by {A} (key : A -> Q) (l : list A) : list A :=
  foldr (insert_by key) [] l.

Definition empty_database : Database :=
  {| documents := []; document_nodes := []; graph_nodes := []; graph_edges := [] |}.

(** [INSERT INTO documents ... RETURNING id]. *)
Definition run_insert_document (content : string) (embedding : list Q)
    (metadata : gmap string pyval) (s : State) : Z * State :=
  let id := next_id s in
  let db := working s in
  let row := {| doc_id := id; doc_content := content;
                doc_embedding := Some embedding;
                doc_metadata := Some metadata |} in
  (id, set_next_id (id + 1)
         (set_working {| documents := documents db ++ [row];
                         document_nodes := document_nodes db;
                         graph_nodes := graph_nodes db;
                         graph_edges := graph_edges db |} s)).

(** [CREATE (d:Document {doc_id, preview, source, length}) RETURN d]. *)
Definition run_cypher_create (id : Z) (preview source : string) (len : nat)
    (s : State) : unit * State :=
  let db := working s in
  let node := {| gn_id := Z.of_nat (length (graph_nodes db));
                 gn_label := "Document"; gn_doc_id := id;
                 gn_preview := preview; gn_source := source;
                 gn_length := len |} in
  (tt, set_working {| documents := documents db;
                      document_nodes := document_nodes db;
                      graph_nodes := graph_nodes db ++ [node];
                      graph_edges := graph_edges db |} s).

(** [INSERT INTO document_nodes ... VALUES (:doc_id, :node_id, 'Document', :props)]. *)
Definition run_insert_document_node (id node_id : Z)
    (props : gmap string pyval) (s : State) : unit * State :=
  let db := working s in
  let row := {| dn_document_id := id; dn_node_id := node_id;
                dn_node_type := "Document"; dn_properties := props |} in
  (tt, set_working {| documents := documents db;
                      document_nodes := document_nodes db ++ [row];
                      graph_nodes := graph_nodes db;
                      graph_edges := graph_edges db |} s).

(** The rows [(d, type(r), related)] of one vertex [d]: one per edge that
    touches it, or a single row of nulls when there is none
    ([OPTIONAL MATCH]). *)
Definition related_rows (edges : list GraphEdge) (d : GraphNode) : list GraphRow :=
  let out := flat_map (fun e =>
      ((if Z.eqb (ge_start e) (gn_id d)
        then [{| grow_doc := d; grow_rel_type := Some (ge_type e);
                 grow_related := Some (ge_end e) |}] else []) ++
       (if Z.eqb (ge_end e) (gn_id d)
        then [{| grow_doc := d; grow_rel_type := Some (ge_type e);
                 grow_related := Some (ge_start e) |}] else []))%list) edges in
  match out with
  | [] => [{| grow_doc := d; grow_rel_type := None; grow_related := None |}]
  | _ => out
  end.

(** [MATCH (d:Document) WHERE d.doc_id IN $doc_ids OPTIONAL MATCH (d)-[r]-(related)
    RETURN d, type(r) as rel_type, related LIMIT 20]. *)
Definition run_cypher_match (doc_ids : list Z) (s : State) : list GraphRow * State :=
  let db := working s in
  let ds := filter (fun d => gn_label d = "Document" /\ gn_doc_id d ∈ doc_ids)
                   (graph_nodes db) in
  (firstn 20 (flat_map (related_rows (graph_edges db)) ds), s).

(** [DELETE FROM documents WHERE id = :id]; the value is [rowcount]. *)
Definition run_delete_document (id : Z) (s : State) : nat * State :=
  let db := working s in
  let gone := filter (fun d => doc_id d = id) (documents db) in
  (length gone,
   set_working {| documents := filter (fun d => doc_id d <> id) (documents db);
                  document_nodes := document_nodes db;
                  graph_nodes := graph_nodes db;
                  graph_edges := graph_edges db |} s).

Section Methods.

Variable W : World.
Variable self : Config.

(** The similarity of a stored row to the query vector:
    [1 - (embedding <=> :embedding)]. *)
Definition similarity (q e : list Q) : Q := 1 - cosine_distance W e q.

(** [SELECT id, content, metadata, 1 - (embedding <=> :e) AS similarity
    FROM documents WHERE embedding IS NOT NULL AND 1 - (embedding <=> :e) >= :threshold
    ORDER BY embedding <=> :e LIMIT :limit]. *)
Definition search_rows (q : list Q) (threshold : Q) (docs : list Document)
  : list (Q * SearchRow) :=
  flat_map (fun d =>
    match doc_embedding d with
    | Some e =>
        if Qle_bool threshold (similarity q e)
        then [(cosine_distance W e q,
               {| row_id := doc_id d; row_content := doc_content d;
                  row_metadata := doc_metadata d;
                  row_similarity := similarity q e |})]
        else []
    | None => []
    end) docs.

Definition select_similar (q : list Q) (threshold : Q) (limit : Z)
    (docs : list Document) : list SearchRow :=
  firstn (Z.to_nat limit) (map snd (order_by fst (search_rows q threshold docs))).

Definition run_select_similar (q : list Q) (threshold : Q) (limit : Z)
    (s : State) : list SearchRow * State :=
  (select_similar q threshold limit (documents (working s)), s).

(** What PostgreSQL answers a statement of a transaction in which an
    earlier statement has failed. *)
Definition in_failed_transaction : exn :=
  "current transaction is aborted, commands ignored until end of transaction block".

(** [session.execute]: the statement is sent.  In a transaction that has
    already failed the engine refuses it.  Otherwise the engine answers
    with an error, which is raised and puts the transaction in the failed
    state (the source sets no savepoint), or the statement takes effect on
    the view of the session. *)
Definition execute {A} (q : statement) (run : State -> A * State) : M A :=
  fun s =>
    let s1 := add_call (CallSql q) s in
    if aborted s then (Raise in_failed_transaction, s1)
    else
      match storage_fault W (working s) q with
      | Some e => (Raise e, set_aborted true s1)
      | None => let (a, s2) := run s1 in (Ok a, s2)
      end.

(** [self.Session()]: a new session, whose transaction starts from the
    committed store. *)
Definition Session : M unit :=
  fun s => (Ok tt, set_aborted false (set_working (committed s) s)).

(** [session.commit()]: the [COMMIT] of a transaction that has failed is
    carried out as a rollback and raises nothing; the [COMMIT] of another
    one makes the view of the session the committed store, unless the
    engine answers it with an error. *)
Definition session_commit : M unit :=
  fun s =>
    if aborted s
    then (Ok tt, set_aborted false
                   (set_working (committed s) (add_call (CallSql Commit) s)))
    else execute Commit (fun s => (tt, set_committed (working s) s)) s.

(** [session.rollback()] and [session.close()]: the transaction ends and
    its effects are dropped. *)
Definition session_rollback : M unit :=
  fun s => (Ok tt, set_aborted false (set_working (committed s) s)).

Definition session_close : M unit :=
  fun s => (Ok tt, set_aborted false (set_working (committed s) s)).

(** [self.client.embeddings.create] and [self.client.chat.completions.create];
    the sampling parameters of the chat call are constants of the source
    ([temperature=0.7], [max_tokens=800], [top_p=0.9]) and are not kept. *)
Definition client_embeddings_create (model input : string) : M (list Q) :=
  fun s => (embeddings_create W model input, add_call (CallEmbeddings model input) s).

Definition client_chat_completions_create (model : string)
    (messages : list message) : M string :=
  fun s => (chat_completions_create W model messages,
            add_call (CallChat model messages) s).

(** *** The methods of [GraphRAG] *)

Definition nl : string := String "010" EmptyString.

(** The text of the dimension warning. *)
Definition mismatch_warning (embedding : list Q) : string :=
  "⚠️ Размер эмбеддинга (" +:+ Text.str_of_nat (length embedding)
    +:+ ") не совпадает с ожидаемым ("
    +:+ Text.str_of_nat (embedding_dimensions self) +:+ ")".

Definition _get_embedding (text : string) : M (list Q) :=
  try_except
    (embedding <- client_embeddings_create (embedding_model_name self) text ;;
     (if negb (length embedding =? embedding_dimensions self)%nat
      then logger_warning (mismatch_warning embedding)
      else ret tt) ;;
     ret embedding)
    (fun e =>
       logger_error ("❌ Ошибка получения эмбеддинга: " +:+ e) ;;
       raise ("Не удалось получить эмбеддинг: " +:+ e)).

(** [v.replace("'", "''")]: only a [str] has the method. *)
Definition escape_quotes (v : pyval) : M string :=
  match v with
  | PStr s => ret (Text.replace_char "'"%char "''" s)
  | POther ty _ => raise ("'" +:+ ty +:+ "' object has no attribute 'replace'")
  end.

(** [metadata.get('source', dflt)]. *)
Definition get_source (metadata : gmap string pyval) (dflt : string) : pyval :=
  default (PStr dflt) (metadata !! "source").

Definition _create_graph_nodes (id : Z) (content : string)
    (metadata : gmap string pyval) : M unit :=
  try_except
    (let preview := Text.replace_char "'"%char "''" (Text.take 200 content) in
     source <- escape_quotes (get_source metadata "unknown") ;;
     execute (CypherCreateDocument id preview source (String.length content))
             (run_cypher_create id preview source (String.length content)) ;;
     let props : gmap string pyval :=
       {[ "source" := get_source metadata "unknown" ]} in
     execute (InsertDocumentNode id id props)
             (run_insert_document_node id id props) ;;
     logger_info ("✅ Графовый узел создан для документа " +:+ Text.str_of_Z id))
    (fun e =>
       logger_warning ("⚠️ Ошибка при создании графового узла: " +:+ e)).

Definition ingest_document (content : string)
    (metadata : option (gmap string pyval)) : M Z :=
  Session ;;
  try_finally
    (try_except
       (logger_info "🔄 Генерация эмбеддинга..." ;;
        embedding <- _get_embedding content ;;
        let metadata := default ∅ metadata in
        logger_info "🔄 Сохранение документа в БД..." ;;
        id <- execute (InsertDocument content embedding
                         (embedding_dimensions self) metadata)
                      (run_insert_document content embedding metadata) ;;
        logger_info "🔄 Создание узлов в графе..." ;;
        _create_graph_nodes id content metadata ;;
        session_commit ;;
        logger_info ("✅ Документ успешно добавлен с ID: " +:+ Text.str_of_Z id) ;;
        ret id)
       (fun e =>
          session_rollback ;;
          logger_error ("❌ Ошибка при добавлении документа: " +:+ e) ;;
          raise e))
    session_close.

Definition _get_graph_context (docs : list SearchRow) : M (option GraphContext) :=
  try_except
    (let doc_ids := map row_id docs in
     graph_data <- execute (CypherMatchRelated doc_ids) (run_cypher_match doc_ids) ;;
     match graph_data with
     | [] => ret None
     | _ =>
         ret (Some {| nodes_found := length graph_data;
                      has_relationships :=
                        existsb (fun row => bool_decide (grow_rel_type row <> None))
                                graph_data;
                      sample_nodes := length graph_data |})
     end)
    (fun e =>
       logger_warning ("⚠️ Ошибка при получении графового контекста: " +:+ e) ;;
       ret None).

(** The [source_info] of one document: nothing when its metadata is null or
    an empty mapping, else the value under ['source'] or the fallback. *)
Definition source_info (md : option (gmap string pyval)) : string :=
  let metadata := default ∅ md in
  if bool_decide (metadata = ∅) then ""
  else " (Источник: " +:+ py_str (get_source metadata "неизвестно") +:+ ")".

(** The entry of the document at position [idx], counted from one. *)
Definition context_entry (idx : nat) (doc : SearchRow) : string :=
  nl +:+ "[Документ " +:+ Text.str_of_nat idx +:+ " | Релевантность: "
     +:+ Num.format_percent (row_similarity doc) +:+ "]"
     +:+ source_info (row_metadata doc) +:+ ":" +:+ nl
     +:+ row_content doc +:+ nl.

Definition graph_summary (gc : option GraphContext) : list string :=
  match gc with
  | Some g =>
      if (0 <? nodes_found g)%nat
      then [nl +:+ "[Графовый контекст]: Найдено " +:+ Text.str_of_nat (nodes_found g)
               +:+ " связанных узлов в графе знаний."]
      else []
  | None => []
  end.

Definition context_header : string := "Контекст из базы знаний:" +:+ nl.

Definition _build_context (docs : list SearchRow)
    (gc : option GraphContext) : string :=
  let context_parts :=
    (context_header :: imap (fun i doc => context_entry (S i) doc) docs
       ++ graph_summary gc)%list in
  Text.join nl context_parts.

Definition system_instruction : string :=
  "Ты - полезный ассистент для ответов на вопросы по базе знаний." +:+ nl +:+
  "Отвечай ТОЛЬКО на основе предоставленного контекста." +:+ nl +:+
  "Если в контексте нет информации для ответа, честно скажи об этом." +:+ nl +:+
  "Отвечай на русском языке, четко и по существу.".

Definition generation_failed : string :=
  "К сожалению, произошла ошибка при генерации ответа: ".

Definition _generate_answer (question context : string) : M string :=
  try_except
    (content <- client_chat_completions_create (llm_model_name self)
        [Message "system" system_instruction;
         Message "user" (context +:+ nl +:+ nl +:+ "Вопрос: " +:+ question
                           +:+ nl +:+ nl +:+ "Ответ:")] ;;
     let answer := Text.strip content in
     logger_info "✅ Ответ успешно сгенерирован" ;;
     ret answer)
    (fun e =>
       logger_error ("❌ Ошибка при генерации ответа: " +:+ e) ;;
       ret (generation_failed +:+ e)).

Definition no_information : string :=
  "К сожалению, я не нашел релевантной информации в базе знаний для ответа на ваш вопрос.".

Definition source_of_row (doc : SearchRow) : Source :=
  {| src_id := row_id doc;
     src_content := Text.take 300 (row_content doc);
     src_similarity := Num.round4 (row_similarity doc);
     src_metadata := row_metadata doc |}.

Definition query (question : string) (top_k : Z) (use_graph : bool)
    (similarity_threshold : Q) : M QueryResult :=
  Session ;;
  try_finally
    (try_except
       (logger_info "🔄 Генерация эмбеддинга запроса..." ;;
        question_embedding <- _get_embedding question ;;
        logger_info "🔍 Поиск похожих документов..." ;;
        docs <- execute (SelectSimilar question_embedding
                           (embedding_dimensions self) similarity_threshold top_k)
                        (run_select_similar question_embedding
                           similarity_threshold top_k) ;;
        logger_info ("📊 Найдено " +:+ Text.str_of_nat (length docs) +:+ " документов") ;;
        match docs with
        | [] =>
            logger_warning "⚠️ Не найдено документов, удовлетворяющих критериям поиска" ;;
            ret {| answer := no_information; sources := []; graph_context := None |}
        | _ =>
            gc <- (if use_graph
                   then logger_info "🕸️ Получение графового контекста..." ;;
                        _get_graph_context docs
                   else ret None) ;;
            let context := _build_context docs gc in
            logger_info "🤖 Генерация ответа через LLM..." ;;
            answer <- _generate_answer question context ;;
            ret {| answer := answer;
                   sources := map source_of_row docs;
                   graph_context := gc |}
        end)
       (fun e =>
          logger_error ("❌ Ошибка при обработке запроса: " +:+ e) ;;
          raise e))
    session_close.

Definition delete_document (id : Z) : M unit :=
  Session ;;
  try_finally
    (try_except
       (rowcount <- execute (DeleteDocument id) (run_delete_document id) ;;
        (if (rowcount =? 0)%nat
         then raise ("Документ с ID " +:+ Text.str_of_Z id +:+ " не найден")
         else ret tt) ;;
        session_commit ;;
        logger_info ("✅ Документ " +:+ Text.str_of_Z id +:+ " удален"))
       (fun e =>
          session_rollback ;;
          logger_error ("❌ Ошибка при удалении документа: " +:+ e) ;;
          raise e))
    session_close.

End Methods.

(** *** Vocabulary of the properties *)



Definition is_chat_call (c : call) : bool :=
  match c with
  | CallChat _ _ => true
  | _ => false
  end.

(** The calls to the answer-generation backend in a trace. *)
Definition chat_calls (t : list call) : list call := List.filter is_chat_call t.


(** The statements [_create_graph_nodes] sends. *)
Definition is_graph_write (q : statement) : bool :=
  match q with
  | CypherCreateDocument _ _ _ _ | InsertDocumentNode _ _ _ => true
  | _ => false
  end.

(** The storage engine accepts the statements of [_create_graph_nodes]. *)
Definition graph_writes_accepted (W : World) : Prop :=
  forall db q, is_graph_write q = true -> storage_fault W db q = None.

Definition initial_state (db : Database) (n : Z) : State :=
  {| committed := db; working := db; aborted := false; next_id := n;
     log := []; trace := [] |}.

End GraphRAG.

(** ** Sample worlds, used to run the methods on concrete inputs *)

Module Samples.

Import GraphRAG.

Definition config : Config :=
  {| embedding_model_name := "text-embedding-nomic-embed-text-v1.5";
     llm_model_name := "llama-3.2-3b-instruct";
     embedding_dimensions := 2 |}.

(** A distance that reads the similarity off the first coordinate of the
    stored vector. *)
Definition first_coordinate_distance (e q : list Q) : Q :=
  match e with
  | x :: _ => (1 - x)%Q
  | [] => 1%Q
  end.

(** Every backend answers. *)
Definition healthy : World :=
  {| embeddings_create := fun _ _ => Ok [1%Q; 0%Q];
     chat_completions_create := fun _ _ => Ok " Machine learning is a branch of AI. ";
     storage_fault := fun _ _ => None;
     cosine_distance := first_coordinate_distance |}.

(** The chat endpoint is down. *)
Definition chat_down : World :=
  {| embeddings_create := fun _ _ => Ok [1%Q; 0%Q];
     chat_completions_create := fun _ _ => Raise "Connection error.";
     storage_fault := fun _ _ => None;
     cosine_distance := first_coordinate_distance |}.

(** The embedding endpoint is down. *)
Definition embeddings_down : World :=
  {| embeddings_create := fun _ _ => Raise "Request timed out.";
     chat_completions_create := fun _ _ => Ok "ok";
     storage_fault := fun _ _ => None;
     cosine_distance := first_coordinate_distance |}.

(** The graph extension rejects every Cypher statement. *)
Definition graph_down : World :=
  {| embeddings_create := fun _ _ => Ok [1%Q; 0%Q];
     chat_completions_create := fun _ _ => Ok "ok";
     storage_fault := fun _ q =>
       match q with
       | CypherCreateDocument _ _ _ _ | CypherMatchRelated _ =>
           Some "function cypher(unknown, unknown) does not exist"
       | _ => None
       end;
     cosine_distance := first_coordinate_distance |}.

(** The embedding endpoint answers with three coordinates where two are
    configured. *)
Definition wrong_dimension : World :=
  {| embeddings_create := fun _ _ => Ok [1%Q; 0%Q; 0%Q];
     chat_completions_create := fun _ _ => Ok "ok";
     storage_fault := fun _ _ => None;
     cosine_distance := first_coordinate_distance |}.

Definition doc (id : Z) (content : string) (sim : Q)
    (md : option (gmap string pyval)) : Document :=
  {| doc_id := id; doc_content := content;
     doc_embedding := Some [sim; 0%Q]; doc_metadata := md |}.

Definition store (docs : list Document) : Database :=
  {| documents := docs; document_nodes := []; graph_nodes := [];
     graph_edges := [] |}.

Definition textbook : gmap string pyval := {[ "source" := PStr "textbook" ]}.

(** One stored document, ingested without metadata. *)
Definition one_doc : State :=
  initial_state (store [doc 1 "hello" (9 # 10) (Some ∅)]) 2.

(** Three stored documents of similarity 0.9, 0.3 and 0.7 to any question. *)
Definition three_docs : State :=
  initial_state
    (store [doc 1 "alpha" (9 # 10) (Some textbook);
            doc 2 "beta" (3 # 10) (Some ∅);
            doc 3 "gamma" (7 # 10) None]) 4.

(** The state a first ingest leaves in the healthy world. *)
Definition after_ingest : State :=
  snd (ingest_document healthy config "Machine learning is a branch of AI"
         (Some textbook) (initial_state empty_database 1)).

(** The row the search returns for the document of [one_doc]. *)
Definition hello_row : SearchRow :=
  {| row_id := 1; row_content := "hello"; row_metadata := Some ∅;
     row_similarity := (1 - (1 - (9 # 10)))%Q |}.

Definition textbook_row : SearchRow :=
  {| row_id := 1; row_content := "alpha"; row_metadata := Some textbook;
     row_similarity := 9 # 10 |}.

End Samples.

(** ** graph_rag.py: start-up and connection checks *)

Module Lifecycle.

Import GraphRAG.

Local Open Scope py_scope.

(** What these methods reach outside the repository, beside the [World]:
    [create_engine], the answer of the storage engine to [SELECT 1], the
    model identifiers [self.client.models.list()] returns, and the
    rendering of a list of identifiers in an f-string. *)
Record Infra := {
  create_engine_error : option exn;
  select_one_fault : Database -> option exn;
  models_list : result (list string);
  render_ids : list string -> string
}.

Section Checks.

Variable I : Infra.

(** [session.execute(text("SELECT 1"))]. *)
Definition execute_select_one : M unit :=
  fun s =>
    match select_one_fault I (working s) with
    | Some e => (Raise e, s)
    | None => (Ok tt, s)
    end.

(** [await self.client.models.list()], as the list of the [id]s. *)
Definition client_models_list : M (list string) :=
  fun s => (models_list I, s).

Definition check_db_connection : M bool :=
  try_except
    (Session ;;
     execute_select_one ;;
     session_close ;;
     ret true)
    (fun e =>
       logger_error ("❌ Ошибка подключения к БД: " +:+ e) ;;
       ret false).

Definition check_llm_connection : M bool :=
  try_except
    (client_models_list ;;
     ret true)
    (fun e =>
       logger_error ("❌ Ошибка подключения к LMStudio: " +:+ e) ;;
       ret false).

Definition _check_lmstudio_connection : M unit :=
  try_except
    (available_models <- client_models_list ;;
     logger_info ("✅ LMStudio подключен. Доступные модели: "
                    +:+ render_ids I available_models) ;;
     match available_models with
     | [] =>
         logger_warning "⚠️ В LMStudio не загружено ни одной модели!" ;;
         logger_warning "   Пожалуйста, загрузите модели в LMStudio перед использованием"
     | _ => ret tt
     end)
    (fun e =>
       logger_error ("⚠️ Ошибка подключения к LMStudio: " +:+ e) ;;
       logger_warning "   Убедитесь, что:" ;;
       logger_warning "   1. LMStudio запущен на http://127.0.0.1:1234" ;;
       logger_warning "   2. В настройках LMStudio включены CORS и Network Access" ;;
       logger_warning "   3. Загружена хотя бы одна модель").

(** [create_engine(self.db_url, poolclass=NullPool, echo=False)]. *)
Definition create_engine : M unit :=
  fun s =>
    match create_engine_error I with
    | Some e => (Raise e, s)
    | None => (Ok tt, s)
    end.

Definition database_unreachable : string :=
  "Не удалось подключиться к PostgreSQL".

Definition initialize : M unit :=
  try_except
    (logger_info "🔄 Подключение к PostgreSQL..." ;;
     create_engine ;;
     connected <- check_db_connection ;;
     (if connected : bool
      then logger_info "✅ Подключение к PostgreSQL установлено"
      else raise database_unreachable) ;;
     logger_info "🔄 Проверка подключения к LMStudio..." ;;
     _check_lmstudio_connection ;;
     logger_info "✅ Инициализация GraphRAG завершена успешно")
    (fun e =>
       logger_error ("❌ Ошибка при инициализации: " +:+ e) ;;
       raise e).

End Checks.

(** A database that answers, and LMStudio down. *)
Definition lmstudio_down : Infra :=
  {| create_engine_error := None;
     select_one_fault := fun _ => None;
     models_list := Raise "Connection error.";
     render_ids := fun ids => "[" +:+ Text.join ", " ids +:+ "]" |}.

(** LMStudio answers, and the database refuses connections. *)
Definition database_down : Infra :=
  {| create_engine_error := None;
     select_one_fault := fun _ => Some "connection refused";
     models_list := Ok ["llama-3.2-3b-instruct"];
     render_ids := fun ids => "[" +:+ Text.join ", " ids +:+ "]" |}.

End Lifecycle.

(** ** rag-service: the endpoints of [app.py] *)

Module RagService.

Import GraphRAG.

Local Open Scope py_scope.

(** What a handler hands to FastAPI: the value it returns, or the
    [HTTPException] it raises. *)
Inductive outcome (A : Type) :=
| Returned (a : A)
| HTTPException (status_code : nat) (detail : string).
Arguments Returned {A} a.
Arguments HTTPException {A} status_code detail.

Record IngestResponse := {
  document_id : Z;
  message : string;
  embedding_dimension : nat
}.

Record HealthResponse := {
  status : string;
  database : bool;
  llm : bool;
  embedding_model : string;
  llm_model : string
}.

Definition HTTP_500_INTERNAL_SERVER_ERROR : nat := 500.

Section Endpoints.

Variable W : World.
Variable I : Lifecycle.Infra.
Variable rag : Config.

(** In [health_check] the name [status] is assigned in the body, so it is a
    local of the function: the [except] clause, which reads
    [status.HTTP_503_SERVICE_UNAVAILABLE], finds it unbound when the body
    failed before the assignment (the wording is the one of CPython 3.11
    and later). *)
Definition status_unbound : exn :=
  "cannot access local variable 'status' where it is not associated with a value".

Definition health_check : M HealthResponse :=
  try_except
    (db_status <- Lifecycle.check_db_connection I ;;
     llm_status <- Lifecycle.check_llm_connection I ;;
     let status := if db_status && llm_status then "healthy" else "degraded" in
     ret {| status := status; database := db_status; llm := llm_status;
            embedding_model := embedding_model_name rag;
            llm_model := llm_model_name rag |})
    (fun e =>
       logger_error ("Ошибка при проверке здоровья: " +:+ e) ;;
       raise status_unbound).

Definition ingest_document (content : string)
    (metadata : option (gmap string pyval)) : M (outcome IngestResponse) :=
  try_except
    (logger_info ("📥 Получен запрос на добавление документа (длина: "
                    +:+ Text.str_of_nat (String.length content) +:+ " символов)") ;;
     doc_id <- GraphRAG.ingest_document W rag content metadata ;;
     logger_info ("✅ Документ успешно добавлен с ID: " +:+ Text.str_of_Z doc_id) ;;
     ret (Returned {| document_id := doc_id;
                      message := "Документ успешно добавлен в базу знаний";
                      embedding_dimension := embedding_dimensions rag |}))
    (fun e =>
       logger_error ("❌ Ошибка при добавлении документа: " +:+ e) ;;
       ret (HTTPException HTTP_500_INTERNAL_SERVER_ERROR
              ("Ошибка при добавлении документа: " +:+ e))).

Definition query_knowledge (question : string) (top_k : Z) (use_graph : bool)
    (similarity_threshold : Q) : M (outcome QueryResult) :=
  try_except
    (logger_info ("🔍 Получен запрос: '" +:+ Text.take 50 question +:+ "...'") ;;
     result <- GraphRAG.query W rag question top_k use_graph similarity_threshold ;;
     logger_info ("✅ Запрос обработан, найдено "
                    +:+ Text.str_of_nat (length (sources result)) +:+ " документов") ;;
     ret (Returned result))
    (fun e =>
       logger_error ("❌ Ошибка при обработке запроса: " +:+ e) ;;
       ret (HTTPException HTTP_500_INTERNAL_SERVER_ERROR
              ("Ошибка при обработке запроса: " +:+ e))).

Definition delete_document (doc_id : Z) : M (outcome string) :=
  try_except
    (logger_info ("🗑️ Запрос на удаление документа ID: " +:+ Text.str_of_Z doc_id) ;;
     GraphRAG.delete_document W doc_id ;;
     logger_info ("✅ Документ " +:+ Text.str_of_Z doc_id +:+ " успешно удален") ;;
     ret (Returned ("Документ " +:+ Text.str_of_Z doc_id +:+ " успешно удален")))
    (fun e =>
       logger_error ("❌ Ошибка при удалении документа: " +:+ e) ;;
       ret (HTTPException HTTP_500_INTERNAL_SERVER_ERROR
              ("Ошибка при удалении документа: " +:+ e))).

End Endpoints.

End RagService.

(** ** lightrag-service: the endpoints of [app.py] *)

Module LightRAGService.

Import Completion.

(** An exception of a handler: an [HTTPException], or any other one, kept
    as its message. *)
Inductive exc :=
| HTTPException (status_code : nat) (detail : string)
| Error (msg : string).

Inductive result (A : Type) :=
| Ok (a : A)
| Raise (e : exc).
Arguments Ok {A} a.
Arguments Raise {A} e.

(** A keyword argument of the completion call. *)
Inductive pyarg :=
| Float (q : Q)
| Int (z : Z)
| Other (rendering : string).

(** The two fields of [settings] the functions read. *)
Record Settings := {
  llm_model : string;
  embedding_model : string
}.

(** What lies outside the repository: the chat endpoint of LM Studio, the
    error [LightRAG.ainsert] answers a text with (given the texts indexed
    so far), and [str()] of an [HTTPException]. *)
Record Backend := {
  chat_completions_create :
    string -> list message -> gmap string pyarg -> result string;
  ainsert_fault : list string -> string -> option exc;
  str_of_http_exception : nat -> string -> string
}.

(** [lightrag_instance] is [None], or an instance with the texts it has
    indexed, oldest first. *)
Record Service := {
  lightrag_instance : option (list string);
  log : list (GraphRAG.level * string)
}.

Record InsertResponse := {
  status : string;
  message : string;
  document_length : nat
}.

Record BatchResponse := {
  batch_status : string;
  batch_message : string;
  count : nat
}.

Definition M (A : Type) : Type := Service -> result A * Service.

Definition ret {A} (a : A) : M A := fun s => (Ok a, s).

Definition raise {A} (e : exc) : M A := fun s => (Raise e, s).

Definition bind {A B} (m : M A) (k : A -> M B) : M B :=
  fun s =>
    match m s with
    | (Ok a, s') => k a s'
    | (Raise e, s') => (Raise e, s')
    end.

Definition try_except {A} (m : M A) (h : exc -> M A) : M A :=
  fun s =>
    match m s with
    | (Ok a, s') => (Ok a, s')
    | (Raise e, s') => h e s'
    end.

Declare Scope lr_scope.
Delimit Scope lr_scope with lr.
Notation "x <- c1 ;; c2" := (bind c1 (fun x => c2))
  (at level 100, c1 at next level, right associativity) : lr_scope.
Notation "c1 ;; c2" := (bind c1 (fun _ => c2))
  (at level 100, right associativity) : lr_scope.
Local Open Scope lr_scope.

Definition logger_info (msg : string) : M unit :=
  fun s => (Ok tt, {| lightrag_instance := lightrag_instance s;
                      log := (log s ++ [(GraphRAG.INFO, msg)])%list |}).

Definition logger_error (msg : string) : M unit :=
  fun s => (Ok tt, {| lightrag_instance := lightrag_instance s;
                      log := (log s ++ [(GraphRAG.ERROR, msg)])%list |}).

(** The defaults of [generation_params]. *)
Definition default_params : gmap string pyarg :=
  {[ "temperature" := Float 0; "top_p" := Float (95 # 100);
     "max_tokens" := Int 2048 ]}.

(** The dictionary the completion call is given: the three keys, each with
    the value of [kwargs] or its default, then updated with the items of
    [kwargs] whose key it does not have yet. *)
Definition generation_params (kwargs : gmap string pyarg) : gmap string pyarg :=
  let params : gmap string pyarg :=
    {[ "temperature" := default (Float 0) (kwargs !! "temperature");
       "top_p" := default (Float (95 # 100)) (kwargs !! "top_p");
       "max_tokens" := default (Int 2048) (kwargs !! "max_tokens") ]} in
  filter (fun kv => params !! kv.1 = None) kwargs ∪ params.

Section Handlers.

Variable B : Backend.
Variable settings : Settings.
Variable lower : string -> string.

(** [str(e)]. *)
Definition str_of_exc (e : exc) : string :=
  match e with
  | HTTPException status_code detail => str_of_http_exception B status_code detail
  | Error msg => msg
  end.

Definition lmstudio_completion_func (prompt : string)
    (system_prompt : option string) (kwargs : gmap string pyarg) : M string :=
  let messages := build_messages lower prompt system_prompt in
  let generation_params := generation_params kwargs in
  try_except
    (fun s => (chat_completions_create B (llm_model settings) messages
                 generation_params, s))
    (fun e =>
       logger_error ("Ошибка при генерации текста: " +:+ str_of_exc e) ;;
       raise e).

(** [await lightrag_instance.ainsert(text)]. *)
Definition ainsert (text : string) : M unit :=
  fun s =>
    match lightrag_instance s with
    | None => (Raise (Error "'NoneType' object has no attribute 'ainsert'"), s)
    | Some index =>
        match ainsert_fault B index text with
        | Some e => (Raise e, s)
        | None => (Ok tt, {| lightrag_instance := Some (index ++ [text])%list;
                             log := log s |})
        end
    end.

Definition not_initialized : exc :=
  HTTPException 503 "LightRAG не инициализирован".

(** [if lightrag_instance is None: raise HTTPException(503, ...)]. *)
Definition require_instance : M unit :=
  fun s =>
    match lightrag_instance s with
    | None => (Raise not_initialized, s)
    | Some _ => (Ok tt, s)
    end.

(** [insert_document]; the [logger.debug] line is below the configured
    level ([logging.INFO]) and leaves no record. *)
Definition insert_document (text : string) : M InsertResponse :=
  require_instance ;;
  try_except
    (let text_to_index := Text.strip text in
     (if bool_decide (text_to_index = "")
      then raise (HTTPException 400 "Текст документа не может быть пустым")
      else ret tt) ;;
     logger_info ("Индексация документа, длина: "
                    +:+ Text.str_of_nat (String.length text_to_index)
                    +:+ " символов") ;;
     ainsert text_to_index ;;
     logger_info "Документ успешно проиндексирован" ;;
     ret {| status := "success";
            message := "Документ успешно проиндексирован";
            document_length := String.length text |})
    (fun e =>
       logger_error ("Ошибка при индексации документа: " +:+ str_of_exc e) ;;
       raise (HTTPException 500
                ("Ошибка при индексации документа: " +:+ str_of_exc e))).

(** The loop [for i, text in enumerate(texts, 1)] of [insert_batch_documents],
    from position [i], with [total = len(texts)]. *)
Fixpoint insert_each (i total : nat) (texts : list string) : M unit :=
  match texts with
  | [] => ret tt
  | text :: rest =>
      ainsert text ;;
      logger_info ("Проиндексирован документ " +:+ Text.str_of_nat i
                     +:+ "/" +:+ Text.str_of_nat total) ;;
      insert_each (S i) total rest
  end.

Definition insert_batch_documents (texts : list string) : M BatchResponse :=
  require_instance ;;
  try_except
    (logger_info ("Пакетная индексация "
                    +:+ Text.str_of_nat (length texts) +:+ " документов") ;;
     insert_each 1 (length texts) texts ;;
     ret {| batch_status := "success";
            batch_message := "Успешно проиндексировано "
                               +:+ Text.str_of_nat (length texts) +:+ " документов";
            count := length texts |})
    (fun e =>
       logger_error ("Ошибка при пакетной индексации: " +:+ str_of_exc e) ;;
       raise (HTTPException 500
                ("Ошибка при пакетной индексации: " +:+ str_of_exc e))).

End Handlers.

(** The index accepts the texts one after the other, starting from
    [index]. *)
Fixpoint accepts_all (B : Backend) (index : list string) (texts : list string)
  : Prop :=
  match texts with
  | [] => True
  | text :: rest =>
      ainsert_fault B index text = None
      /\ accepts_all B (index ++ [text])%list rest
  end.

(** A backend that indexes every text but the one that reads ["bad"]. *)
Definition picky : Backend :=
  {| chat_completions_create := fun _ _ _ => Ok "ok";
     ainsert_fault := fun _ text =>
       if String.eqb text "bad" then Some (Error "extraction failed") else None;
     str_of_http_exception := fun status_code detail =>
       Text.str_of_nat status_code +:+ ": " +:+ detail |}.

Definition running : Service :=
  {| lightrag_instance := Some []; log := [] |}.

End LightRAGService.

(** ** Further vocabulary of the properties *)

Module Vocabulary.

Import GraphRAG.

(** The row the search makes of a stored document. *)
Definition row_of (W : World) (q : list Q) (d : Document) (e : list Q) : SearchRow :=
  {| row_id := doc_id d; row_content := doc_content d;
     row_metadata := doc_metadata d; row_similarity := similarity W q e |}.

End Vocabulary.

(** * Properties *)

Import GraphRAG Completion.

(** ** Text *)

Lemma app_cons (c : ascii) (s t : string) : String c s +:+ t = String c (s +:+ t).
Proof. reflexivity. Qed.

Lemma app_nil_l (t : string) : "" +:+ t = t.
Proof. reflexivity. Qed.

Lemma append_nil_r (s : string) : s +:+ "" = s.
Proof.
  induction s as [|c s IH]; [reflexivity |].
  now rewrite app_cons, IH.
Qed.

Lemma append_assoc (a b c : string) : (a +:+ b) +:+ c = a +:+ (b +:+ c).
Proof.
  induction a as [|x a IH]; [reflexivity |].
  now rewrite !app_cons, IH.
Qed.

Lemma length_append (a b : string) :
  String.length (a +:+ b) = (String.length a + String.length b)%nat.
Proof.
  induction a as [|x a IH]; [reflexivity |].
  rewrite app_cons. simpl. now rewrite IH.
Qed.

Lemma prefix_spec (p s : string) :
  String.prefix p s = true <-> exists post, s = p +:+ post.
Proof.
  revert s. induction p as [|c p IH]; intros s.
  - split; [intros _; now exists s | now destruct s].
  - destruct s as [|d s]; simpl.
    + split; [discriminate | intros [post H]; discriminate].
    + destruct (Ascii.ascii_dec c d) as [->|Hne].
      * rewrite IH. split; intros [post H]; exists post.
        -- now rewrite app_cons, H.
        -- rewrite app_cons in H. now inversion H.
      * split; [discriminate |].
        intros [post H]. rewrite app_cons in H. inversion H. congruence.
Qed.

Lemma contains_cons (kw : string) (c : ascii) (s : string) :
  Text.contains kw (String c s)
  = if String.prefix kw (String c s) then true else Text.contains kw s.
Proof. reflexivity. Qed.

Lemma contains_nil (kw : string) :
  Text.contains kw "" = String.prefix kw "".
Proof. now destruct kw. Qed.

Lemma contains_spec (kw s : string) :
  Text.contains kw s = true <-> Text.occurs_in kw s.
Proof.
  unfold Text.occurs_in. induction s as [|c s IH].
  - rewrite contains_nil, prefix_spec. split.
    + intros [post E]. now exists "", post.
    + intros [pre [post H]]. destruct pre; [| discriminate].
      rewrite app_nil_l in H. now exists post.
  - rewrite contains_cons.
    destruct (String.prefix kw (String c s)) eqn:E.
    + split; [intros _ | reflexivity].
      apply prefix_spec in E as [post E]. now exists "", post.
    + rewrite IH. split.
      * intros [pre [post H]]. exists (String c pre), post.
        now rewrite app_cons, H.
      * intros [pre [post H]]. destruct pre as [|d pre].
        -- rewrite app_nil_l in H.
           assert (String.prefix kw (String c s) = true) as E'
             by (apply prefix_spec; now exists post).
           congruence.
        -- rewrite app_cons in H. inversion H; subst. now exists pre, post.
Qed.

Lemma append_neq (s d : string) : d <> "" -> s +:+ d <> s.
Proof.
  intros Hd H. apply (f_equal String.length) in H.
  rewrite length_append in H. destruct d; [congruence | simpl in H; lia].
Qed.

(** ** The completion function *)

Lemma looks_like_extraction_spec (lower : string -> string) (sp : string) :
  looks_like_extraction lower sp = true <->
  exists kw,
    In kw ["extract"; "entity"; "relation"; "relationship"; "knowledge"]
    /\ Text.occurs_in kw (lower sp).
Proof.
  unfold looks_like_extraction. rewrite existsb_exists. split.
  - intros [kw [Hin Hc]]. exists kw. rewrite <- contains_spec. split; [| exact Hc].
    unfold extraction_keywords in Hin. simpl in *. tauto.
  - intros [kw [Hin Hc]]. exists kw. rewrite contains_spec. split; [| exact Hc].
    unfold extraction_keywords. simpl in *. tauto.
Qed.

(** C8.  For a system prompt given to [lmstudio_completion_func], the strict
    directive is appended to it exactly when its lowercased text contains
    one of the keywords extract, entity, relation, relationship, knowledge;
    otherwise the system message carries the prompt unchanged.  (Appending
    the directive always changes the prompt, so the two cases exclude each
    other.) *)
Theorem strict_directive_iff_extraction_keyword
    (lower : string -> string) (prompt sp : string) :
  sp <> "" ->
  let has_keyword :=
    exists kw,
      In kw ["extract"; "entity"; "relation"; "relationship"; "knowledge"]
      /\ Text.occurs_in kw (lower sp) in
  (has_keyword ->
   build_messages lower prompt (Some sp)
   = [Message "system" (sp +:+ strict_directive); Message "user" prompt])
  /\ (~ has_keyword ->
      build_messages lower prompt (Some sp)
      = [Message "system" sp; Message "user" prompt])
  /\ sp +:+ strict_directive <> sp.
Proof.
  intros Hsp has_keyword. unfold build_messages, strict_system_prompt.
  rewrite bool_decide_eq_false_2 by exact Hsp.
  repeat split.
  - intros Hk. apply looks_like_extraction_spec in Hk. now rewrite Hk.
  - intros Hk. destruct (looks_like_extraction lower sp) eqn:E; [| reflexivity].
    exfalso. apply Hk. now apply looks_like_extraction_spec.
  - apply append_neq. discriminate.
Qed.

Lemma strict_directive_iff_extraction_keyword_witness :
  "Extract entities" <> ""
  /\ build_messages Text.ascii_lower "p" (Some "Extract entities")
     = [Message "system" ("Extract entities" +:+ strict_directive);
        Message "user" "p"].
Proof.
  split; [discriminate |].
  apply (strict_directive_iff_extraction_keyword
           Text.ascii_lower "p" "Extract entities"); [discriminate |].
  exists "extract". split; [simpl; tauto |].
  exists "", " entities". reflexivity.
Defined.

(** ** Rounding *)





(** ** [ORDER BY] and [LIMIT] *)

Section Sorting.

Context {A : Type} (key : A -> Q).

Lemma insert_by_Permutation (x : A) (l : list A) :
  insert_by key x l ≡ₚ x :: l.
Proof.
  induction l as [|y l IH]; simpl; [reflexivity |].
  destruct (Qle_bool (key x) (key y)); [reflexivity |].
  rewrite IH. apply Permutation_swap.
Qed.

Lemma order_by_Permutation (l : list A) : order_by key l ≡ₚ l.
Proof.
  induction l as [|x l IH]; simpl; [reflexivity |].
  rewrite insert_by_Permutation. now rewrite IH.
Qed.



End Sorting.





Section Search.

Variable W : World.



End Search.

(** ** The methods *)

Ltac unfold_monad :=
  unfold bind, ret, raise, try_except, try_finally, Session, session_commit,
    session_rollback, session_close, execute, logger_info, logger_warning,
    logger_error, client_embeddings_create, client_chat_completions_create in *.

Ltac done_state := eexists; (split; [reflexivity |]); simpl; auto.

Section MethodFacts.

Variable W : World.
Variable self : Config.

Lemma get_embedding_ok (text : string) (e : list Q) (s : State) :
  embeddings_create W (embedding_model_name self) text = Ok e ->
  exists s',
    _get_embedding W self text s = (Ok e, s')
    /\ committed s' = committed s /\ working s' = working s
    /\ next_id s' = next_id s
    /\ trace s' = (trace s ++ [CallEmbeddings (embedding_model_name self) text])%list.
Proof.
  intros H. unfold _get_embedding. unfold_monad. rewrite H.
  destruct (negb _); simpl; done_state.
Qed.

Lemma create_graph_nodes_total (id : Z) (content : string)
    (metadata : gmap string pyval) (s : State) :
  exists s',
    _create_graph_nodes W id content metadata s = (Ok tt, s')
    /\ committed s' = committed s
    /\ next_id s' = next_id s
    /\ documents (working s') = documents (working s).
Proof.
  unfold _create_graph_nodes, escape_quotes. unfold_monad.
  destruct (get_source metadata "unknown") as [src | ty r]; simpl.
  - destruct (aborted s) eqn:Hab; simpl; [done_state |].
    destruct (storage_fault W (working s) _); simpl; [done_state |].
    rewrite ?Hab; simpl.
    destruct (storage_fault W _ (InsertDocumentNode _ _ _)); simpl; done_state.
  - done_state.
Qed.

Lemma get_graph_context_total (docs : list SearchRow) (s : State) :
  exists gc s',
    _get_graph_context W docs s = (Ok gc, s')
    /\ committed s' = committed s
    /\ match gc with
       | None => True
       | Some g =>
           (1 <= nodes_found g <= 20)%nat /\ sample_nodes g = nodes_found g
       end.
Proof.
  unfold _get_graph_context. unfold_monad. simpl.
  destruct (aborted s); simpl;
    [eexists _, _; split; [reflexivity |]; simpl; auto |].
  destruct (storage_fault W (working s) _); simpl.
  - eexists _, _; split; [reflexivity |]; simpl; auto.
  - set (rows := firstn 20 _).
    assert (length rows <= 20)%nat as Hlen by (subst rows; apply firstn_le_length).
    destruct rows as [|r rows]; simpl in *.
    + eexists _, _; split; [reflexivity |]; simpl; auto.
    + eexists _, _; split; [reflexivity |]; simpl. split; [auto | lia].
Qed.

Lemma generate_answer_total (question context : string) (s : State) :
  exists a s',
    _generate_answer W self question context s = (Ok a, s')
    /\ committed s' = committed s.
Proof.
  unfold _generate_answer. unfold_monad.
  destruct (chat_completions_create W _ _); simpl;
    eexists _, _; (split; [reflexivity |]); simpl; auto.
Qed.

(** The two ways the body of [_create_graph_nodes] fails before anything is
    written: the graph store refuses the [CREATE], or the [source] of the
    metadata has no [replace].  Both end in a warning and a normal return;
    the first one leaves the transaction in the failed state. *)
Lemma create_graph_nodes_swallows_storage_error (id : Z) (content : string)
    (metadata : gmap string pyval) (s : State) (src : string) (err : exn) :
  aborted s = false ->
  get_source metadata "unknown" = PStr src ->
  storage_fault W (working s)
    (CypherCreateDocument id
       (Text.replace_char "'"%char "''" (Text.take 200 content))
       (Text.replace_char "'"%char "''" src) (String.length content))
  = Some err ->
  exists s',
    _create_graph_nodes W id content metadata s = (Ok tt, s')
    /\ committed s' = committed s
    /\ working s' = working s
    /\ aborted s' = true
    /\ log s'
       = (log s ++ [(WARNING, "⚠️ Ошибка при создании графового узла: " +:+ err)])%list.
Proof.
  intros Hab Hsrc Hfault. unfold _create_graph_nodes, escape_quotes.
  unfold_monad. rewrite Hsrc. cbv beta iota. rewrite Hab, Hfault. simpl.
  done_state.
Qed.

Lemma create_graph_nodes_swallows_attribute_error (id : Z) (content : string)
    (metadata : gmap string pyval) (s : State) (ty rendering : string) :
  get_source metadata "unknown" = POther ty rendering ->
  exists s',
    _create_graph_nodes W id content metadata s = (Ok tt, s')
    /\ working s' = working s
    /\ aborted s' = aborted s
    /\ trace s' = trace s.
Proof.
  intros Hsrc. unfold _create_graph_nodes, escape_quotes. unfold_monad.
  rewrite Hsrc. simpl. done_state.
Qed.

Lemma create_graph_nodes_log (id : Z) (content : string)
    (metadata : gmap string pyval) (s : State) :
  exists s',
    _create_graph_nodes W id content metadata s = (Ok tt, s')
    /\ (forall entry, entry ∈ log s -> entry ∈ log s')
    /\ documents (working s') = documents (working s).
Proof.
  unfold _create_graph_nodes, escape_quotes. unfold_monad.
  destruct (get_source metadata "unknown") as [src | ty r]; simpl.
  - destruct (aborted s) eqn:Hab; simpl.
    { done_state. split; [| reflexivity]. intros. apply elem_of_app. now left. }
    destruct (storage_fault W (working s) _); simpl.
    + done_state. split; [| reflexivity]. intros. apply elem_of_app. now left.
    + rewrite ?Hab; simpl.
      destruct (storage_fault W _ (InsertDocumentNode _ _ _)); simpl; done_state;
        (split; [| reflexivity]); intros; apply elem_of_app; now left.
  - done_state. split; [| reflexivity]. intros. apply elem_of_app. now left.
Qed.

(** [_create_graph_nodes] always returns; it leaves the documents of the
    session, the graph edges, the log and the trace it found in place, and
    it leaves the transaction sound when the engine accepts its
    statements. *)
Lemma create_graph_nodes_outcome (id : Z) (content : string)
    (metadata : gmap string pyval) (s : State) :
  exists s',
    _create_graph_nodes W id content metadata s = (Ok tt, s')
    /\ committed s' = committed s
    /\ next_id s' = next_id s
    /\ documents (working s') = documents (working s)
    /\ graph_edges (working s') = graph_edges (working s)
    /\ (forall entry, entry ∈ log s -> entry ∈ log s')
    /\ (forall c, c ∈ trace s -> c ∈ trace s')
    /\ (aborted s = false -> graph_writes_accepted W -> aborted s' = false).
Proof.
  assert (forall {A} (l : list A) x y, x ∈ l -> x ∈ (l ++ [y])%list) as Hin
    by (intros; apply elem_of_app; now left).
  unfold _create_graph_nodes, escape_quotes. unfold_monad.
  destruct (get_source metadata "unknown") as [src | ty r]; simpl.
  - destruct (aborted s) eqn:Hab; simpl.
    { done_state. repeat split; auto. intros H; discriminate. }
    destruct (storage_fault W (working s) (CypherCreateDocument _ _ _ _))
      eqn:Hc; simpl.
    + done_state. repeat split; auto.
      intros _ Hacc. rewrite Hacc in Hc; [discriminate | reflexivity].
    + rewrite ?Hab; simpl.
      destruct (storage_fault W _ (InsertDocumentNode _ _ _)) eqn:Hn; simpl;
        done_state; repeat split; auto.
      intros _ Hacc. rewrite Hacc in Hn; [discriminate | reflexivity].
  - done_state. repeat split; auto.
Qed.

Lemma rowcount_zero (id : Z) (docs : list Document) :
  (forall d, d ∈ docs -> doc_id d <> id) ->
  length (filter (fun d => doc_id d = id) docs) = 0%nat.
Proof.
  intros H. induction docs as [|d docs IH]; [reflexivity |].
  rewrite filter_cons. destruct (decide (doc_id d = id)) as [E | _].
  - exfalso. apply (H d); [apply list_elem_of_here | exact E].
  - apply IH. intros d' Hd'. apply H. now apply list_elem_of_further.
Qed.

Lemma rowcount_positive (id : Z) (docs : list Document) (d : Document) :
  d ∈ docs -> doc_id d = id ->
  (length (filter (fun d => doc_id d = id) docs) =? 0)%nat = false.
Proof.
  intros Hin Hid. apply Nat.eqb_neq. intros Hlen.
  apply length_zero_iff_nil in Hlen.
  apply (filter_nil_not_elem_of _ _ d Hlen Hid Hin).
Qed.

(** What a successful [query] went through: the question was embedded, the
    sources are the rows of the similarity search, and the graph context,
    when there is one, counts between one and twenty rows. *)
Lemma query_ok_inv (question : string) (top_k : Z) (use_graph : bool) (t : Q)
    (s s' : State) (r : QueryResult) :
  query W self question top_k use_graph t s = (Ok r, s') ->
  exists qe,
    embeddings_create W (embedding_model_name self) question = Ok qe
    /\ sources r
       = map source_of_row
           (select_similar W qe t top_k (documents (committed s)))
    /\ match graph_context r with
       | None => True
       | Some g =>
           (1 <= nodes_found g <= 20)%nat /\ sample_nodes g = nodes_found g
       end.
Proof.
  unfold query, _get_embedding, run_select_similar. unfold_monad. simpl.
  destruct (embeddings_create W (embedding_model_name self) question)
    as [qe | err] eqn:He; simpl; [| intros H; discriminate].
  intros H. exists qe. split; [reflexivity |]. revert H.
  destruct (negb _); simpl;
    (destruct (storage_fault W (committed s) _); simpl;
     [intros H; discriminate |]);
    (destruct (select_similar W qe t top_k (documents (committed s)))
       as [|d ds] eqn:Hs; simpl;
     [intros H; inversion H; subst; simpl; auto |]);
    (destruct use_graph; simpl;
     [ match goal with
       | |- context [_get_graph_context W ?docs ?st] =>
           destruct (get_graph_context_total docs st) as (gc & s2 & E & _ & Hgc);
           rewrite E
       end
     | ]);
    match goal with
    | |- context [_generate_answer W self ?q ?c ?st] =>
        destruct (generate_answer_total q c st) as (a & s3 & E' & _);
        rewrite E'
    end; intros H; inversion H; subst; simpl; auto.
Qed.

(** *** Ingest *)

(** C4.  When the embedding request of an ingest fails, [ingest_document]
    raises, and nothing of the call is persisted: the committed store is
    the one before the call, the view of the session is reset to it by the
    rollback, no identifier is consumed, and the only call that left the
    process is the embedding request (no statement, hence no [INSERT], no
    Cypher [CREATE] and no commit, was sent). *)
Theorem ingest_embedding_failure_leaves_no_state
    (content : string) (metadata : option (gmap string pyval))
    (s : State) (err : exn) :
  embeddings_create W (embedding_model_name self) content = Raise err ->
  exists s',
    ingest_document W self content metadata s
    = (Raise ("Не удалось получить эмбеддинг: " +:+ err), s')
    /\ committed s' = committed s
    /\ working s' = committed s
    /\ next_id s' = next_id s
    /\ trace s'
       = (trace s ++ [CallEmbeddings (embedding_model_name self) content])%list.
Proof.
  intros H. unfold ingest_document, _get_embedding. unfold_monad.
  simpl. rewrite H. simpl. done_state.
Qed.

(** C3.  Where the code departs from the claim.  When the storage engine
    refuses the Cypher [CREATE] of [_create_graph_nodes], the exception is
    swallowed and [ingest_document] returns the new identifier, as the
    claim says.  But the refused statement has put the transaction of the
    [INSERT] in the failed state, and the code sets no savepoint: the
    [COMMIT] that follows is carried out as a rollback.  The committed
    store is the one before the call, so the document row is lost, while
    the log reports the document as added. *)
Theorem ingest_loses_the_row_when_the_graph_store_raises
    (content : string) (metadata : option (gmap string pyval))
    (s : State) (e : list Q) (src : string) (err : exn) :
  embeddings_create W (embedding_model_name self) content = Ok e ->
  storage_fault W (committed s)
    (InsertDocument content e (embedding_dimensions self) (default ∅ metadata))
    = None ->
  get_source (default ∅ metadata) "unknown" = PStr src ->
  (forall db,
     storage_fault W db
       (CypherCreateDocument (next_id s)
          (Text.replace_char "'"%char "''" (Text.take 200 content))
          (Text.replace_char "'"%char "''" src) (String.length content))
     = Some err) ->
  exists s',
    ingest_document W self content metadata s = (Ok (next_id s), s')
    /\ committed s' = committed s
    /\ (WARNING, "⚠️ Ошибка при создании графового узла: " +:+ err) ∈ log s'
    /\ (INFO, "✅ Документ успешно добавлен с ID: " +:+ Text.str_of_Z (next_id s))
       ∈ log s'.
Proof.
  intros He Hins Hsrc Hfault. unfold ingest_document, _get_embedding.
  unfold_monad. simpl. rewrite He.
  destruct (negb _); simpl; rewrite Hins; simpl;
    match goal with
    | |- context [_create_graph_nodes W ?id ?c ?m ?st] =>
        destruct (create_graph_nodes_swallows_storage_error id c m st src err
                    eq_refl Hsrc (Hfault _))
          as (s2 & E & Hc & _ & Hab & Hlog);
        rewrite E
    end; simpl; rewrite Hab; simpl;
    (eexists; split; [reflexivity |]); simpl; rewrite Hc, Hlog; simpl;
    (split; [reflexivity |]); set_solver.
Qed.

(** C9.  When the embedding backend answers with a vector whose length is
    not the configured dimension, [_get_embedding] logs the mismatch as a
    warning and still returns the vector; the ingest goes on to the
    [INSERT] with it, and returns when the storage engine accepts the
    statement and the commit.  The row with that vector is in the
    committed store when the engine also accepts the graph statements. *)
Theorem embedding_dimension_mismatch_is_a_warning
    (content : string) (metadata : option (gmap string pyval))
    (s : State) (e : list Q) :
  embeddings_create W (embedding_model_name self) content = Ok e ->
  length e <> embedding_dimensions self ->
  _get_embedding W self content s
  = (Ok e,
     add_log WARNING (mismatch_warning self e)
       (add_call (CallEmbeddings (embedding_model_name self) content) s))
  /\ (storage_fault W (committed s)
        (InsertDocument content e (embedding_dimensions self) (default ∅ metadata))
      = None ->
      (forall db, storage_fault W db Commit = None) ->
      exists s',
        ingest_document W self content metadata s = (Ok (next_id s), s')
        /\ (WARNING, mismatch_warning self e) ∈ log s'
        /\ CallSql (InsertDocument content e (embedding_dimensions self)
                      (default ∅ metadata)) ∈ trace s'
        /\ (graph_writes_accepted W ->
            exists d, d ∈ documents (committed s')
                      /\ doc_id d = next_id s /\ doc_embedding d = Some e)).
Proof.
  intros He Hlen.
  assert (negb (length e =? embedding_dimensions self)%nat = true) as Hneq.
  { apply negb_true_iff, Nat.eqb_neq, Hlen. }
  split.
  - unfold _get_embedding. unfold_monad. rewrite He, Hneq. reflexivity.
  - intros Hins Hcommit. unfold ingest_document, _get_embedding. unfold_monad.
    simpl. rewrite He, Hneq. simpl. rewrite Hins. simpl.
    match goal with
    | |- context [_create_graph_nodes W ?id ?c ?m ?st] =>
        pose proof (create_graph_nodes_outcome id c m st)
          as (s2 & E & _ & _ & Hd & _ & Hl & Ht & Hab);
        rewrite E
    end.
    simpl. destruct (aborted s2) eqn:Hs2; simpl.
    + eexists; split; [reflexivity |]. simpl. split; [| split].
      * apply elem_of_app. left. apply Hl. simpl. set_solver.
      * apply elem_of_app. left. apply Ht. simpl. set_solver.
      * intros Hacc. specialize (Hab eq_refl Hacc). discriminate.
    + rewrite Hcommit. simpl.
      eexists; split; [reflexivity |]. simpl. split; [| split].
      * apply elem_of_app. left. apply Hl. simpl. set_solver.
      * apply elem_of_app. left. apply Ht. simpl. set_solver.
      * intros _. eexists. split; [rewrite Hd; simpl; apply elem_of_app; right;
                                   apply list_elem_of_here |].
        simpl. auto.
Qed.

(** *** Delete *)

(** C7.  [delete_document] raises when no stored document has the
    identifier: the error of the storage engine if it answers with one, the
    "not found" error otherwise; nothing is committed and the store is
    unchanged.  When a document has the identifier and the engine accepts
    the statement and the commit, the rows with that identifier are gone
    from the committed store. *)
Theorem delete_document_missing_or_committed (id : Z) (s : State) :
  ((forall d, d ∈ documents (committed s) -> doc_id d <> id) ->
   exists s',
     delete_document W id s
     = (Raise (match storage_fault W (committed s) (DeleteDocument id) with
               | Some e => e
               | None => "Документ с ID " +:+ Text.str_of_Z id +:+ " не найден"
               end), s')
     /\ committed s' = committed s
     /\ working s' = committed s
     /\ trace s' = (trace s ++ [CallSql (DeleteDocument id)])%list)
  /\ (forall d, d ∈ documents (committed s) -> doc_id d = id ->
      storage_fault W (committed s) (DeleteDocument id) = None ->
      (forall db, storage_fault W db Commit = None) ->
      exists s',
        delete_document W id s = (Ok tt, s')
        /\ documents (committed s')
           = filter (fun d => doc_id d <> id) (documents (committed s))
        /\ trace s'
           = (trace s ++ [CallSql (DeleteDocument id); CallSql Commit])%list).
Proof.
  split.
  - intros Hnone. unfold delete_document, run_delete_document. unfold_monad.
    simpl. destruct (storage_fault W (committed s) (DeleteDocument id)); simpl.
    + done_state.
    + rewrite (rowcount_zero id _ Hnone). simpl. done_state.
  - intros d Hin Hid Hdel Hcommit.
    unfold delete_document, run_delete_document. unfold_monad.
    simpl. rewrite Hdel. simpl.
    rewrite (rowcount_positive id _ d Hin Hid). simpl.
    rewrite Hcommit. simpl. done_state. split; [reflexivity |].
    now rewrite <- app_assoc.
Qed.

(** *** Query *)

(** C2.  When the similarity search of a query returns no row, [query]
    returns the fixed "no relevant information" answer with no sources and
    no graph context, and the chat backend is not called: the calls of the
    query are the embedding request and the search. *)
Theorem query_without_documents_short_circuits
    (question : string) (top_k : Z) (use_graph : bool) (t : Q)
    (s : State) (qe : list Q) :
  embeddings_create W (embedding_model_name self) question = Ok qe ->
  storage_fault W (committed s)
    (SelectSimilar qe (embedding_dimensions self) t top_k) = None ->
  select_similar W qe t top_k (documents (committed s)) = [] ->
  exists s',
    query W self question top_k use_graph t s
    = (Ok {| answer := no_information; sources := []; graph_context := None |}, s')
    /\ chat_calls (trace s') = chat_calls (trace s)
    /\ trace s'
       = (trace s ++
          [CallEmbeddings (embedding_model_name self) question;
           CallSql (SelectSimilar qe (embedding_dimensions self) t top_k)])%list.
Proof.
  intros He Hf Hs. unfold query, _get_embedding, run_select_similar. unfold_monad.
  simpl. rewrite He.
  destruct (negb _); simpl; rewrite Hf; simpl; rewrite Hs; simpl;
    (eexists; split; [reflexivity |]; simpl; split;
     [| now rewrite <- app_assoc]);
    unfold chat_calls; rewrite !List.filter_app; simpl; now rewrite !app_nil_r.
Qed.


(** C10.  The graph context of a result of [query] is null, or a summary
    whose [nodes_found] lies between 1 and 20, whose [sample_nodes] is the
    same number, and whose [has_relationships] is a boolean. *)
Theorem query_graph_context_shape
    (question : string) (top_k : Z) (use_graph : bool) (t : Q)
    (s s' : State) (r : QueryResult) :
  query W self question top_k use_graph t s = (Ok r, s') ->
  graph_context r = None
  \/ exists g,
       graph_context r = Some g
       /\ (1 <= nodes_found g <= 20)%nat
       /\ sample_nodes g = nodes_found g
       /\ (has_relationships g = true \/ has_relationships g = false).
Proof.
  intros H. apply query_ok_inv in H as (qe & _ & _ & Hgc).
  destruct (graph_context r) as [g|]; [right | now left].
  exists g. destruct Hgc as (Hn & Hsample).
  repeat split; try lia; try assumption.
  destruct (has_relationships g); auto.
Qed.


End MethodFacts.

(** ** The context block *)

Lemma join_cons (sep p q : string) (rest : list string) :
  Text.join sep (p :: q :: rest) = p +:+ sep +:+ Text.join sep (q :: rest).
Proof. reflexivity. Qed.

Lemma join_occurs (sep p : string) (parts : list string) :
  p ∈ parts -> Text.occurs_in p (Text.join sep parts).
Proof.
  unfold Text.occurs_in. induction parts as [|x rest IH]; intros Hin.
  - inversion Hin.
  - apply elem_of_cons in Hin as [-> | Hin].
    + destruct rest as [|q rest].
      * exists "", "". simpl. now rewrite app_nil_l, append_nil_r.
      * exists "", (sep +:+ Text.join sep (q :: rest)). now rewrite join_cons.
    + destruct (IH Hin) as (pre & post & E).
      destruct rest as [|q rest]; [inversion Hin |].
      exists (x +:+ sep +:+ pre), post.
      rewrite join_cons, E. now rewrite !append_assoc.
Qed.

Lemma join_snoc (sep x : string) (parts : list string) :
  parts <> [] ->
  Text.join sep (parts ++ [x]) = Text.join sep parts +:+ sep +:+ x.
Proof.
  induction parts as [|p rest IH]; intros Hne; [congruence |].
  destruct rest as [|q rest]; [reflexivity |].
  change ((p :: q :: rest) ++ [x])%list with (p :: (q :: rest) ++ [x])%list.
  simpl ((q :: rest) ++ [x])%list. rewrite !join_cons.
  change (q :: (rest ++ [x]))%list with ((q :: rest) ++ [x])%list.
  rewrite IH by discriminate. now rewrite !append_assoc.
Qed.

(** C6, as the code has it.  In the context block every retrieved document
    contributes a numbered entry with its similarity as a percentage and
    its full content; the entry names the source only when the metadata of
    the document is a non-empty mapping: then it carries the value under
    [source], or the fallback text when the mapping has no such key.  A
    document whose metadata is null or empty gets no source annotation.
    The one-line graph summary ends the block when the graph context is
    present with a positive [nodes_found], and is left out otherwise. *)
Theorem build_context_entries (docs : list SearchRow) (gc : option GraphContext) :
  (forall i doc,
     docs !! i = Some doc ->
     Text.occurs_in
       (nl +:+ "[Документ " +:+ Text.str_of_nat (S i) +:+ " | Релевантность: "
           +:+ Num.format_percent (row_similarity doc) +:+ "]"
           +:+ match row_metadata doc with
               | Some m =>
                   if bool_decide (m = ∅) then ""
                   else " (Источник: "
                          +:+ match m !! "source" with
                              | Some v => py_str v
                              | None => "неизвестно"
                              end +:+ ")"
               | None => ""
               end
           +:+ ":" +:+ nl +:+ row_content doc +:+ nl)
       (_build_context docs gc))
  /\ (forall g,
        gc = Some g -> (0 < nodes_found g)%nat ->
        exists pre,
          _build_context docs gc
          = pre +:+ nl +:+ nl +:+ "[Графовый контекст]: Найдено "
                +:+ Text.str_of_nat (nodes_found g)
                +:+ " связанных узлов в графе знаний.")
  /\ (gc = None \/ (exists g, gc = Some g /\ nodes_found g = 0%nat) ->
      _build_context docs gc = _build_context docs None).
Proof.
  split; [| split].
  - intros i doc Hi. unfold _build_context.
    match goal with |- Text.occurs_in ?e _ =>
      replace e with (context_entry (S i) doc) end.
    + apply join_occurs. apply list_elem_of_further, elem_of_app. left.
      apply list_elem_of_lookup. exists i.
      rewrite list_lookup_imap, Hi. reflexivity.
    + unfold context_entry, source_info, get_source.
      destruct (row_metadata doc) as [m|]; simpl.
      * destruct (bool_decide (m = ∅)); [reflexivity |].
        now destruct (m !! "source").
      * reflexivity.
  - intros g -> Hg. unfold _build_context, graph_summary.
    apply Nat.ltb_lt in Hg. rewrite Hg.
    exists (Text.join nl (context_header :: imap (fun i doc => context_entry (S i) doc) docs)).
    rewrite app_comm_cons, join_snoc by discriminate. reflexivity.
  - intros [-> | (g & -> & Hg)]; [reflexivity |].
    unfold _build_context, graph_summary. now rewrite Hg.
Qed.

(** ** The methods on concrete inputs *)

Import Samples.

Lemma ingest_embedding_failure_leaves_no_state_witness :
  embeddings_create embeddings_down (embedding_model_name config) "hello"
  = Raise "Request timed out."
  /\ exists s',
       ingest_document embeddings_down config "hello" None
         (initial_state empty_database 1)
       = (Raise "Не удалось получить эмбеддинг: Request timed out.", s')
       /\ committed s' = empty_database.
Proof.
  split; [reflexivity |].
  destruct (ingest_embedding_failure_leaves_no_state embeddings_down config
              "hello" None (initial_state empty_database 1) "Request timed out."
              eq_refl) as (s' & E & Hc & _).
  exists s'. split; [exact E | exact Hc].
Defined.

Lemma ingest_loses_the_row_when_the_graph_store_raises_witness :
  storage_fault graph_down empty_database
    (CypherCreateDocument 1 "hello" "unknown" 5)
  = Some "function cypher(unknown, unknown) does not exist"
  /\ exists s',
       ingest_document graph_down config "hello" None
         (initial_state empty_database 1) = (Ok 1%Z, s')
       /\ documents (committed s') = [].
Proof.
  split; [reflexivity |].
  destruct (ingest_loses_the_row_when_the_graph_store_raises graph_down config
              "hello" None (initial_state empty_database 1) [1%Q; 0%Q]
              "unknown" "function cypher(unknown, unknown) does not exist"
              eq_refl eq_refl eq_refl (fun _ => eq_refl))
    as (s' & E & Hc & _).
  exists s'. split; [exact E |]. rewrite Hc. reflexivity.
Defined.

Lemma query_without_documents_short_circuits_witness :
  select_similar healthy [1%Q; 0%Q] (1 # 2) 5 (documents empty_database) = []
  /\ exists s',
       query healthy config "anything" 5 true (1 # 2)
         (initial_state empty_database 1)
       = (Ok {| answer := no_information; sources := []; graph_context := None |}, s')
       /\ chat_calls (trace s') = [].
Proof.
  split; [reflexivity |].
  destruct (query_without_documents_short_circuits healthy config "anything"
              5 true (1 # 2) (initial_state empty_database 1) [1%Q; 0%Q]
              eq_refl eq_refl eq_refl) as (s' & E & Hc & _).
  exists s'. split; [exact E | exact Hc].
Defined.




Lemma query_graph_context_shape_witness :
  exists r s',
    query healthy config "What is machine learning?" 1 true 0 after_ingest
    = (Ok r, s')
    /\ graph_context r
       = Some {| nodes_found := 1; has_relationships := false; sample_nodes := 1 |}
    /\ (graph_context r = None
        \/ exists g,
             graph_context r = Some g
             /\ (1 <= nodes_found g <= 20)%nat
             /\ sample_nodes g = nodes_found g
             /\ (has_relationships g = true \/ has_relationships g = false)).
Proof.
  eexists _, _. split; [vm_compute; reflexivity |].
  split; [reflexivity |].
  refine (query_graph_context_shape healthy config
            "What is machine learning?" 1 true 0 after_ingest _ _ _).
  vm_compute; reflexivity.
Defined.

Lemma delete_document_missing_or_committed_witness :
  (exists s',
     delete_document healthy 7 three_docs
     = (Raise "Документ с ID 7 не найден", s')
     /\ committed s' = committed three_docs)
  /\ (exists s',
        delete_document healthy 1 three_docs = (Ok tt, s')
        /\ map doc_id (documents (committed s')) = [2%Z; 3%Z]).
Proof.
  split.
  - destruct (proj1 (delete_document_missing_or_committed healthy 7 three_docs))
      as (s' & E & Hc & _).
    + intros d Hd. simpl in Hd.
      rewrite !elem_of_cons, elem_of_nil in Hd.
      destruct Hd as [-> | [-> | [-> | []]]]; discriminate.
    + exists s'. split; [exact E | exact Hc].
  - destruct (proj2 (delete_document_missing_or_committed healthy 1 three_docs)
                (doc 1 "alpha" (9 # 10) (Some textbook)))
      as (s' & E & Hd & _).
    + apply list_elem_of_here.
    + reflexivity.
    + reflexivity.
    + intros db. reflexivity.
    + exists s'. split; [exact E |]. rewrite Hd. reflexivity.
Defined.

Lemma embedding_dimension_mismatch_is_a_warning_witness :
  length [1%Q; 0%Q; 0%Q] <> embedding_dimensions config
  /\ exists s',
       ingest_document wrong_dimension config "hello" None
         (initial_state empty_database 1) = (Ok 1%Z, s')
       /\ (WARNING, mismatch_warning config [1%Q; 0%Q; 0%Q]) ∈ log s'.
Proof.
  split; [discriminate |].
  destruct (proj2 (embedding_dimension_mismatch_is_a_warning wrong_dimension
                     config "hello" None (initial_state empty_database 1)
                     [1%Q; 0%Q; 0%Q] eq_refl ltac:(discriminate))
              eq_refl (fun _ => eq_refl)) as (s' & E & Hw & _).
  exists s'. split; [exact E | exact Hw].
Defined.

Lemma build_context_entries_witness :
  [textbook_row] !! 0%nat = Some textbook_row
  /\ Text.occurs_in
       (nl +:+ "[Документ 1 | Релевантность: 90.00%] (Источник: textbook):"
           +:+ nl +:+ "alpha" +:+ nl)
       (_build_context [textbook_row]
          (Some {| nodes_found := 1; has_relationships := false;
                   sample_nodes := 1 |}))
  /\ exists pre,
       _build_context [textbook_row]
         (Some {| nodes_found := 1; has_relationships := false;
                  sample_nodes := 1 |})
       = pre +:+ nl +:+ nl
             +:+ "[Графовый контекст]: Найдено 1 связанных узлов в графе знаний.".
Proof.
  split; [reflexivity |].
  pose proof (build_context_entries [textbook_row]
                (Some {| nodes_found := 1; has_relationships := false;
                         sample_nodes := 1 |})) as (Hentry & Hgraph & _).
  split.
  - exact (Hentry 0%nat textbook_row eq_refl).
  - exact (Hgraph _ eq_refl ltac:(simpl; lia)).
Defined.

(** The claim C6 as the specification states it fails: a document that was
    ingested without metadata has the empty mapping as its metadata; its
    entry has no [source] key to show, and yet carries neither the fallback
    text nor any source annotation. *)
Lemma build_context_no_fallback_for_empty_metadata :
  default ∅ (row_metadata hello_row) !! "source" = None
  /\ _build_context [hello_row] None
     = "Контекст из базы знаний:" +:+ nl +:+ nl +:+ nl
         +:+ "[Документ 1 | Релевантность: 90.00%]:" +:+ nl +:+ "hello" +:+ nl
  /\ Text.contains "неизвестно" (_build_context [hello_row] None) = false
  /\ Text.contains "Источник" (_build_context [hello_row] None) = false.
Proof. repeat split; vm_compute; reflexivity. Qed.

(** The similarity a source reports is the similarity of its row rounded to
    four decimals; the threshold is compared with the value before the
    rounding, so a reported value can sit below a threshold that is not
    itself a multiple of 0.0001. *)
Example reported_similarity_is_rounded :
  let t := (50004 # 100000)%Q in
  let row := {| row_id := 1; row_content := "hello"; row_metadata := None;
                row_similarity := 50004 # 100000 |} in
  Qle_bool t (row_similarity row) = true
  /\ Qle_bool t (src_similarity (source_of_row row)) = false.
Proof. split; reflexivity. Qed.

(** * Further properties *)

Import Vocabulary.

(** ** The similarity search, both ways *)

Section SearchFacts.
Variable W : World.

Lemma search_rows_sound (q : list Q) (t : Q) (docs : list Document) (p : Q * SearchRow) :
  p ∈ search_rows W q t docs ->
  exists d e,
    d ∈ docs /\ doc_embedding d = Some e
    /\ (t <= similarity W q e)%Q
    /\ p = (cosine_distance W e q, row_of W q d e).
Proof.
  unfold search_rows. intros Hp.
  apply list_elem_of_In, in_flat_map in Hp as (d & Hd & Hp).
  apply list_elem_of_In in Hd.
  destruct (doc_embedding d) as [e|] eqn:He; [| destruct Hp].
  destruct (Qle_bool t (similarity W q e)) eqn:Ht; [| destruct Hp].
  destruct Hp as [<- | []]. apply Qle_bool_iff in Ht.
  exists d, e. auto.
Qed.

Lemma search_rows_complete (q : list Q) (t : Q) (docs : list Document)
    (d : Document) (e : list Q) :
  d ∈ docs -> doc_embedding d = Some e -> (t <= similarity W q e)%Q ->
  (cosine_distance W e q, row_of W q d e) ∈ search_rows W q t docs.
Proof.
  intros Hd He Ht. unfold search_rows.
  apply list_elem_of_In, in_flat_map. exists d.
  split; [now apply list_elem_of_In |].
  rewrite He. apply Qle_bool_iff in Ht. rewrite Ht. now left.
Qed.

Lemma length_search_rows (q : list Q) (t : Q) (docs : list Document) :
  (length (search_rows W q t docs) <= length docs)%nat.
Proof.
  unfold search_rows. induction docs as [|d docs IH]; simpl; [lia |].
  rewrite length_app.
  destruct (doc_embedding d) as [e|]; simpl; [| lia].
  destruct (Qle_bool t (similarity W q e)); simpl; lia.
Qed.

Lemma select_similar_sound (q : list Q) (t : Q) (k : Z) (docs : list Document)
    (row : SearchRow) :
  row ∈ select_similar W q t k docs ->
  exists d e,
    d ∈ docs /\ doc_embedding d = Some e
    /\ (t <= similarity W q e)%Q /\ row = row_of W q d e.
Proof.
  unfold select_similar. intros Hrow.
  apply elem_of_take in Hrow as (i & Hi & _).
  apply list_elem_of_lookup_2 in Hi.
  apply list_elem_of_fmap in Hi as (p & -> & Hp).
  rewrite order_by_Permutation in Hp.
  apply search_rows_sound in Hp as (d & e & Hd & He & Ht & ->).
  exists d, e. auto.
Qed.

Lemma select_similar_complete (q : list Q) (t : Q) (k : Z) (docs : list Document)
    (d : Document) (e : list Q) :
  d ∈ docs -> doc_embedding d = Some e -> (t <= similarity W q e)%Q ->
  (length docs <= Z.to_nat k)%nat ->
  row_of W q d e ∈ select_similar W q t k docs.
Proof.
  intros Hd He Ht Hk. unfold select_similar.
  rewrite firstn_all2.
  - apply list_elem_of_fmap. exists (cosine_distance W e q, row_of W q d e).
    split; [reflexivity |]. rewrite order_by_Permutation.
    now apply search_rows_complete.
  - rewrite length_map, (Permutation_length (order_by_Permutation fst _)).
    pose proof (length_search_rows q t docs). lia.
Qed.

End SearchFacts.

(** ** Ingest, query and delete together *)

Lemma length_text_take (n : nat) (s : string) :
  (String.length (Text.take n s) <= n)%nat.
Proof.
  revert s. induction n as [|n IH]; intros [|c s]; simpl; try lia.
  specialize (IH s). lia.
Qed.

Lemma related_rows_no_edges (d : GraphNode) :
  related_rows [] d
  = [{| grow_doc := d; grow_rel_type := None; grow_related := None |}].
Proof. reflexivity. Qed.

Lemma existsb_false_Forall {A} (f : A -> bool) (l : list A) :
  Forall (fun x => f x = false) l -> existsb f l = false.
Proof.
  induction 1 as [|x l Hx _ IH]; simpl; [reflexivity |]. now rewrite Hx, IH.
Qed.

Section CoreFacts.
Variable W : World.
Variable self : Config.

(** What [ingest_document] leaves behind.  When it returns, the identifier
    is the next of the sequence, and the committed store has gained the new
    row or is the one before the call; it has gained the row when the
    engine accepts the graph statements.  When it raises, the committed
    store is the one before the call. *)
Lemma ingest_outcome
    (content : string) (metadata : option (gmap string pyval)) (s : State) :
  match ingest_document W self content metadata s with
  | (Ok id, s') =>
      exists e,
        embeddings_create W (embedding_model_name self) content = Ok e
        /\ id = next_id s
        /\ graph_edges (committed s') = graph_edges (committed s)
        /\ (documents (committed s')
            = (documents (committed s) ++
               [{| doc_id := id; doc_content := content;
                   doc_embedding := Some e;
                   doc_metadata := Some (default ∅ metadata) |}])%list
            \/ committed s' = committed s)
        /\ (graph_writes_accepted W ->
            documents (committed s')
            = (documents (committed s) ++
               [{| doc_id := id; doc_content := content;
                   doc_embedding := Some e;
                   doc_metadata := Some (default ∅ metadata) |}])%list)
  | (Raise _, s') => committed s' = committed s
  end.
Proof.
  unfold ingest_document, _get_embedding. unfold_monad. simpl.
  destruct (embeddings_create W (embedding_model_name self) content)
    as [e | err] eqn:He; simpl; [| reflexivity].
  destruct (negb _); simpl;
    (destruct (storage_fault W (committed s) _); simpl; [reflexivity |]);
    match goal with
    | |- context [_create_graph_nodes W ?id ?c ?m ?st] =>
        destruct (create_graph_nodes_outcome W id c m st)
          as (s2 & E & Hc & _ & Hd & Hg & _ & _ & Hab);
        rewrite E
    end; simpl;
    (destruct (aborted s2) eqn:Hs2; simpl;
     [ exists e; rewrite Hc; simpl; repeat split; auto;
       intros Hacc; specialize (Hab eq_refl Hacc); discriminate
     | destruct (storage_fault W (working s2) Commit); simpl;
       [exact Hc |];
       exists e; rewrite Hd, Hg; simpl; repeat split; auto ]).
Qed.

Lemma delete_ok_inv (id : Z) (s s' : State) :
  delete_document W id s = (Ok tt, s') ->
  documents (committed s')
  = filter (fun d => doc_id d <> id) (documents (committed s)).
Proof.
  unfold delete_document, run_delete_document. unfold_monad. simpl.
  destruct (storage_fault W (committed s) (DeleteDocument id)); simpl;
    [intros H; discriminate |].
  destruct (length _ =? 0)%nat; simpl; [intros H; discriminate |].
  destruct (storage_fault W _ Commit); simpl; [intros H; discriminate |].
  intros H. inversion H; subst. reflexivity.
Qed.

Lemma get_graph_context_no_edges (docs : list SearchRow) (s : State) :
  graph_edges (working s) = [] ->
  exists gc s',
    _get_graph_context W docs s = (Ok gc, s')
    /\ forall g, gc = Some g -> has_relationships g = false.
Proof.
  intros Hedges. unfold _get_graph_context, run_cypher_match. unfold_monad. simpl.
  destruct (aborted s); simpl;
    [eexists _, _; split; [reflexivity |]; intros g H; discriminate |].
  destruct (storage_fault W (working s) _); simpl.
  - eexists _, _; split; [reflexivity |]. intros g H. discriminate.
  - rewrite Hedges.
    set (ds := filter _ (graph_nodes (working s))).
    assert (Forall (fun row => bool_decide (grow_rel_type row <> None) = false)
              (firstn 20 (flat_map (related_rows []) ds))) as Hrows.
    { apply Forall_take. rewrite Forall_forall. intros row Hrow.
      apply list_elem_of_In, in_flat_map in Hrow as (d & _ & Hrow).
      rewrite related_rows_no_edges in Hrow. destruct Hrow as [<- | []].
      reflexivity. }
    destruct (firstn 20 _) as [|row rows]; simpl.
    + eexists _, _; split; [reflexivity |]. intros g H. discriminate.
    + eexists _, _; split; [reflexivity |]. intros g H. inversion H; subst.
      exact (existsb_false_Forall _ _ Hrows).
Qed.

Lemma query_ok_no_edges (question : string) (top_k : Z) (use_graph : bool) (t : Q)
    (s s' : State) (r : QueryResult) :
  graph_edges (committed s) = [] ->
  query W self question top_k use_graph t s = (Ok r, s') ->
  forall g, graph_context r = Some g -> has_relationships g = false.
Proof.
  intros Hedges.
  unfold query, _get_embedding, run_select_similar. unfold_monad. simpl.
  destruct (embeddings_create W (embedding_model_name self) question)
    as [qe | err] eqn:He; simpl; [| intros H; discriminate].
  destruct (negb _); simpl;
    (destruct (storage_fault W (committed s) _); simpl;
     [intros H; discriminate |]);
    (destruct (select_similar W qe t top_k (documents (committed s)))
       as [|d ds] eqn:Hs; simpl;
     [intros H; inversion H; subst; simpl; intros g Hg; discriminate |]);
    (destruct use_graph; simpl;
     [ match goal with
       | |- context [_get_graph_context W ?docs ?st] =>
           destruct (get_graph_context_no_edges docs st Hedges)
             as (gc & s2 & E & Hgc);
           rewrite E
       end
     | ]);
    match goal with
    | |- context [_generate_answer W self ?q ?c ?st] =>
        destruct (generate_answer_total W self q c st) as (a & s3 & E' & _);
        rewrite E'
    end; intros H; inversion H; subst; simpl; auto; intros g Hg; discriminate.
Qed.

(** X1.  [ingest_document] is all or nothing for the committed store.  When
    it raises, for whatever reason (embedding, [INSERT] or commit), the
    committed store is the one before the call.  When it returns, the
    identifier is the next of the sequence, and the committed store either
    has gained exactly the new row (the content, its embedding, and the
    metadata or the empty mapping) or is the one before the call; it has
    gained the row whenever the engine accepts the graph statements.  So a
    returned identifier alone does not tell that the row is stored. *)
Theorem ingest_is_all_or_nothing
    (content : string) (metadata : option (gmap string pyval)) (s : State) :
  (forall id s',
     ingest_document W self content metadata s = (Ok id, s') ->
     exists e,
       embeddings_create W (embedding_model_name self) content = Ok e
       /\ id = next_id s
       /\ (documents (committed s')
           = (documents (committed s) ++
              [{| doc_id := id; doc_content := content;
                  doc_embedding := Some e;
                  doc_metadata := Some (default ∅ metadata) |}])%list
           \/ committed s' = committed s)
       /\ (graph_writes_accepted W ->
           documents (committed s')
           = (documents (committed s) ++
              [{| doc_id := id; doc_content := content;
                  doc_embedding := Some e;
                  doc_metadata := Some (default ∅ metadata) |}])%list))
  /\ (forall err s',
        ingest_document W self content metadata s = (Raise err, s') ->
        committed s' = committed s).
Proof.
  pose proof (ingest_outcome content metadata s) as H. split.
  - intros id s' E. rewrite E in H.
    destruct H as (e & He & Hid & _ & Hd & Hacc).
    exists e. auto.
  - intros err s' E. now rewrite E in H.
Qed.

(** X3.  Ingest then query, when the engine accepts the graph statements:
    after an ingest that returned [id], a query that returns, whose
    threshold the similarity of the new document reaches and whose [top_k]
    exceeds the number of documents stored before the ingest, lists the
    document among its sources, with its identifier, the first 300
    characters of its content, its rounded similarity and its metadata. *)
Theorem ingested_document_is_retrieved
    (content question : string) (metadata : option (gmap string pyval))
    (top_k : Z) (use_graph : bool) (t : Q)
    (s s1 s2 : State) (id : Z) (r : QueryResult) (e qe : list Q) :
  graph_writes_accepted W ->
  ingest_document W self content metadata s = (Ok id, s1) ->
  query W self question top_k use_graph t s1 = (Ok r, s2) ->
  embeddings_create W (embedding_model_name self) content = Ok e ->
  embeddings_create W (embedding_model_name self) question = Ok qe ->
  (t <= 1 - cosine_distance W e qe)%Q ->
  (length (documents (committed s)) < Z.to_nat top_k)%nat ->
  {| src_id := id; src_content := Text.take 300 content;
     src_similarity := Num.round4 (1 - cosine_distance W e qe);
     src_metadata := Some (default ∅ metadata) |} ∈ sources r.
Proof.
  intros Hacc Hing Hq He Hqe Ht Hk.
  pose proof (ingest_outcome content metadata s) as Hi. rewrite Hing in Hi.
  destruct Hi as (e' & He' & Hid & _ & _ & Hdocs).
  specialize (Hdocs Hacc).
  rewrite He in He'. inversion He'; subst e'.
  apply query_ok_inv in Hq as (qe' & Hqe' & Hsrc & _).
  rewrite Hqe in Hqe'. inversion Hqe'; subst qe'.
  rewrite Hsrc. apply list_elem_of_fmap.
  set (d := {| doc_id := id; doc_content := content; doc_embedding := Some e;
               doc_metadata := Some (default ∅ metadata) |}).
  exists (row_of W qe d e). split; [reflexivity |].
  apply select_similar_complete.
  - rewrite Hdocs. apply elem_of_app. right. apply list_elem_of_here.
  - reflexivity.
  - exact Ht.
  - rewrite Hdocs, length_app. simpl. lia.
Qed.

(** X4.  Delete then query: after a [delete_document] that returned, no
    source of a query carries the deleted identifier. *)
Theorem deleted_document_is_not_retrieved
    (id : Z) (question : string) (top_k : Z) (use_graph : bool) (t : Q)
    (s s1 s2 : State) (r : QueryResult) :
  delete_document W id s = (Ok tt, s1) ->
  query W self question top_k use_graph t s1 = (Ok r, s2) ->
  forall src, src ∈ sources r -> src_id src <> id.
Proof.
  intros Hdel Hq src Hsrc.
  apply delete_ok_inv in Hdel.
  apply query_ok_inv in Hq as (qe & _ & Hs & _).
  rewrite Hs in Hsrc. apply list_elem_of_fmap in Hsrc as (row & -> & Hrow).
  apply select_similar_sound in Hrow as (d & e & Hd & _ & _ & ->).
  rewrite Hdel in Hd. apply list_elem_of_filter in Hd as (Hne & _).
  exact Hne.
Qed.

(** X7.  Every source of a query result is the preview of a stored
    document: its identifier and metadata are the ones of the document and
    its content is the first 300 characters of the document's content, so
    at most 300 characters long. *)
Theorem sources_are_previews_of_stored_documents
    (question : string) (top_k : Z) (use_graph : bool) (t : Q)
    (s s' : State) (r : QueryResult) :
  query W self question top_k use_graph t s = (Ok r, s') ->
  forall src,
    src ∈ sources r ->
    (String.length (src_content src) <= 300)%nat
    /\ exists d,
         d ∈ documents (committed s)
         /\ src_id src = doc_id d
         /\ src_content src = Text.take 300 (doc_content d)
         /\ src_metadata src = doc_metadata d.
Proof.
  intros Hq src Hsrc.
  apply query_ok_inv in Hq as (qe & _ & Hs & _).
  rewrite Hs in Hsrc. apply list_elem_of_fmap in Hsrc as (row & -> & Hrow).
  apply select_similar_sound in Hrow as (d & e & Hd & _ & _ & ->).
  split; [apply length_text_take |]. exists d. auto.
Qed.

(** X6.  [ingest_document] creates vertices only: a store without graph
    edges is without graph edges after it, whatever its outcome.  On such a
    store the graph context of a query, when there is one, reports
    [has_relationships = false]. *)
Theorem no_relationships_without_edges
    (content question : string) (metadata : option (gmap string pyval))
    (top_k : Z) (use_graph : bool) (t : Q) (s : State) :
  graph_edges (committed s) = [] ->
  graph_edges (committed (snd (ingest_document W self content metadata s))) = []
  /\ forall r s' g,
       query W self question top_k use_graph t s = (Ok r, s') ->
       graph_context r = Some g -> has_relationships g = false.
Proof.
  intros Hedges. split.
  - pose proof (ingest_outcome content metadata s) as H.
    destruct (ingest_document W self content metadata s) as [[id | err] s'];
      simpl.
    + destruct H as (e & _ & _ & Hg & _). now rewrite Hg.
    + now rewrite H.
  - intros r s' g Hq. now apply (query_ok_no_edges _ _ _ _ _ _ _ Hedges Hq).
Qed.

(** X5.  A failure of the graph lookup does not fail the query: when the
    Cypher [MATCH] raises, [query] logs a warning and returns the answer of
    the chat backend (stripped) with the retrieved sources and a null graph
    context. *)
Theorem query_survives_graph_lookup_failure
    (question : string) (top_k : Z) (t : Q) (s : State) (qe : list Q)
    (d : SearchRow) (ds : list SearchRow) (gerr : exn) (content : string) :
  embeddings_create W (embedding_model_name self) question = Ok qe ->
  storage_fault W (committed s)
    (SelectSimilar qe (embedding_dimensions self) t top_k) = None ->
  select_similar W qe t top_k (documents (committed s)) = d :: ds ->
  storage_fault W (committed s) (CypherMatchRelated (map row_id (d :: ds)))
  = Some gerr ->
  (forall messages,
     chat_completions_create W (llm_model_name self) messages = Ok content) ->
  exists s',
    query W self question top_k true t s
    = (Ok {| answer := Text.strip content;
             sources := map source_of_row (d :: ds);
             graph_context := None |}, s')
    /\ (WARNING, "⚠️ Ошибка при получении графового контекста: " +:+ gerr) ∈ log s'.
Proof.
  intros He Hf Hs Hg Hchat. simpl in Hg.
  unfold query, _get_embedding, run_select_similar, _get_graph_context,
    _generate_answer. unfold_monad. simpl. rewrite He.
  destruct (negb _); simpl; rewrite Hf; simpl; rewrite Hs; simpl;
    rewrite Hg; simpl; rewrite Hchat; simpl;
    (eexists; split; [reflexivity |]); simpl; set_solver.
Qed.
(** X2.  [query] never writes: whatever its outcome, the committed store is
    the one before the call, and the view of the session is reset to it. *)
Theorem query_never_writes
    (question : string) (top_k : Z) (use_graph : bool) (t : Q) (s : State) :
  let s' := snd (query W self question top_k use_graph t s) in
  committed s' = committed s /\ working s' = committed s.
Proof.
  unfold query, _get_embedding, run_select_similar. unfold_monad. simpl.
  destruct (embeddings_create W (embedding_model_name self) question)
    as [qe | err]; simpl; [| auto].
  destruct (negb _); simpl;
    (destruct (storage_fault W (committed s) _); simpl; [auto |]);
    (destruct (select_similar W qe t top_k (documents (committed s)))
       as [|d ds]; simpl; [auto |]);
    (destruct use_graph; simpl;
     [ match goal with
       | |- context [_get_graph_context W ?docs ?st] =>
           destruct (get_graph_context_total W docs st) as (gc & s2 & E & Hc & _);
           rewrite E
       end
     | ]);
    match goal with
    | |- context [_generate_answer W self ?q ?c ?st] =>
        destruct (generate_answer_total W self q c st) as (a & s3 & E' & Hc');
        rewrite E'
    end; simpl; rewrite Hc'; try rewrite Hc; simpl; auto.
Qed.
End CoreFacts.

Lemma chat_calls_app (t1 t2 : list call) :
  chat_calls (t1 ++ t2) = (chat_calls t1 ++ chat_calls t2)%list.
Proof. apply List.filter_app. Qed.

Section CallFacts.
Variable W : World.
Variable self : Config.

Lemma get_graph_context_calls (docs : list SearchRow) (s : State) :
  exists gc s',
    _get_graph_context W docs s = (Ok gc, s')
    /\ chat_calls (trace s') = chat_calls (trace s).
Proof.
  unfold _get_graph_context, run_cypher_match. unfold_monad. simpl.
  destruct (aborted s); simpl;
    [eexists _, _; split; [reflexivity |]; simpl;
     rewrite chat_calls_app; simpl; apply app_nil_r |].
  destruct (storage_fault W (working s) _); simpl.
  - eexists _, _; split; [reflexivity |]. simpl.
    rewrite chat_calls_app. simpl. apply app_nil_r.
  - destruct (firstn 20 _); simpl;
      (eexists _, _; split; [reflexivity |]); simpl;
      rewrite chat_calls_app; simpl; apply app_nil_r.
Qed.

Lemma generate_answer_calls (question context : string) (s : State) :
  exists a s' c,
    _generate_answer W self question context s = (Ok a, s')
    /\ chat_calls (trace s') = (chat_calls (trace s) ++ [c])%list.
Proof.
  unfold _generate_answer. unfold_monad.
  destruct (chat_completions_create W _ _); simpl;
    (eexists _, _, _; split; [reflexivity |]); simpl;
    rewrite chat_calls_app; reflexivity.
Qed.

(** X13.  A query calls the chat backend at most once, whatever its
    outcome: the chat calls of the trace after it are the ones before it,
    or those and one more. *)
Theorem query_calls_the_chat_backend_at_most_once
    (question : string) (top_k : Z) (use_graph : bool) (t : Q) (s : State) :
  let s' := snd (query W self question top_k use_graph t s) in
  chat_calls (trace s') = chat_calls (trace s)
  \/ exists c, chat_calls (trace s') = (chat_calls (trace s) ++ [c])%list.
Proof.
  unfold query, _get_embedding, run_select_similar. unfold_monad. simpl.
  destruct (embeddings_create W (embedding_model_name self) question)
    as [qe | err]; simpl.
  2: { left. rewrite chat_calls_app. simpl. apply app_nil_r. }
  assert (forall tr c1 c2,
            is_chat_call c1 = false -> is_chat_call c2 = false ->
            chat_calls ((tr ++ [c1]) ++ [c2]) = chat_calls tr) as Htwo.
  { intros tr c1 c2 H1 H2. rewrite !chat_calls_app. simpl.
    rewrite H1, H2. now rewrite !app_nil_r. }
  destruct (negb _); simpl;
    (destruct (storage_fault W (committed s) _); simpl;
     [left; now apply Htwo |]);
    (destruct (select_similar W qe t top_k (documents (committed s)))
       as [|d ds]; simpl; [left; now apply Htwo |]);
    (destruct use_graph; simpl;
     [ match goal with
       | |- context [_get_graph_context W ?docs ?st] =>
           destruct (get_graph_context_calls docs st) as (gc & s2 & E & Hc);
           rewrite E; simpl in Hc
       end
     | ]);
    match goal with
    | |- context [_generate_answer W self ?q ?c ?st] =>
        destruct (generate_answer_calls q c st) as (a & s3 & c0 & E' & Hc');
        rewrite E'; simpl in Hc'
    end; simpl; right; exists c0; rewrite Hc'; try rewrite Hc;
    f_equal; now apply Htwo.
Qed.
End CallFacts.

(** ** Start-up, health and the endpoints of the rag-service *)

Section LifecycleFacts.
Variable I : Lifecycle.Infra.

Lemma check_db_connection_spec (s : State) :
  exists s',
    Lifecycle.check_db_connection I s
    = (Ok (bool_decide (Lifecycle.select_one_fault I (committed s) = None)), s')
    /\ committed s' = committed s.
Proof.
  unfold Lifecycle.check_db_connection, Lifecycle.execute_select_one.
  unfold_monad. simpl.
  destruct (Lifecycle.select_one_fault I (committed s)); simpl; done_state.
Qed.

Lemma check_llm_connection_spec (s : State) :
  exists s',
    Lifecycle.check_llm_connection I s
    = (Ok (match Lifecycle.models_list I with Ok _ => true | Raise _ => false end), s')
    /\ committed s' = committed s.
Proof.
  unfold Lifecycle.check_llm_connection, Lifecycle.client_models_list.
  unfold_monad. destruct (Lifecycle.models_list I); simpl; done_state.
Qed.

Lemma check_lmstudio_connection_total (s : State) :
  exists s',
    Lifecycle._check_lmstudio_connection I s = (Ok tt, s')
    /\ committed s' = committed s.
Proof.
  unfold Lifecycle._check_lmstudio_connection, Lifecycle.client_models_list.
  unfold_monad. destruct (Lifecycle.models_list I) as [[|m ms] | e]; simpl;
    done_state.
Qed.

(** X8.  Once the engine is created, [initialize] depends on the database
    only: it returns when [SELECT 1] goes through, whatever LMStudio
    answers (an unreachable LMStudio is logged, not raised), and it raises
    the "cannot connect to PostgreSQL" error when [SELECT 1] fails. *)
Theorem initialize_needs_the_database_only (s : State) :
  Lifecycle.create_engine_error I = None ->
  (Lifecycle.select_one_fault I (committed s) = None ->
   exists s', Lifecycle.initialize I s = (Ok tt, s'))
  /\ (forall e,
        Lifecycle.select_one_fault I (committed s) = Some e ->
        exists s',
          Lifecycle.initialize I s = (Raise Lifecycle.database_unreachable, s')
          /\ (ERROR, "❌ Ошибка подключения к БД: " +:+ e) ∈ log s').
Proof.
  intros Hengine. split.
  - intros Hdb. unfold Lifecycle.initialize, Lifecycle.create_engine.
    unfold_monad. simpl. rewrite Hengine.
    match goal with
    | |- context [Lifecycle.check_db_connection I ?st] =>
        destruct (check_db_connection_spec st) as (s1 & E & _); rewrite E
    end.
    simpl. rewrite Hdb. simpl.
    match goal with
    | |- context [Lifecycle._check_lmstudio_connection I ?st] =>
        destruct (check_lmstudio_connection_total st) as (s2 & E2 & _); rewrite E2
    end.
    eexists. reflexivity.
  - intros e Hdb. unfold Lifecycle.initialize, Lifecycle.create_engine,
      Lifecycle.check_db_connection, Lifecycle.execute_select_one.
    unfold_monad. simpl. rewrite Hengine. simpl. rewrite Hdb. simpl.
    eexists. split; [reflexivity |]. simpl. set_solver.
Qed.
End LifecycleFacts.

Section EndpointFacts.
Variable W : World.
Variable I : Lifecycle.Infra.
Variable rag : Config.

(** X9.  [health_check] always returns a [HealthResponse], never the 503
    branch: [database] tells whether [SELECT 1] went through, [llm] whether
    the model list could be fetched (an empty list counts as reachable),
    and the status is "healthy" when both hold and "degraded" otherwise.
    The committed store is left as it was. *)
Theorem health_is_healthy_iff_both_checks_pass (s : State) :
  let db := bool_decide (Lifecycle.select_one_fault I (committed s) = None) in
  let llm := match Lifecycle.models_list I with Ok _ => true | Raise _ => false end in
  exists s',
    RagService.health_check I rag s
    = (Ok {| RagService.status := if db && llm then "healthy" else "degraded";
             RagService.database := db;
             RagService.llm := llm;
             RagService.embedding_model := embedding_model_name rag;
             RagService.llm_model := llm_model_name rag |}, s')
    /\ committed s' = committed s.
Proof.
  intros db llm. unfold RagService.health_check. unfold_monad.
  destruct (check_db_connection_spec I s) as (s1 & E1 & H1). rewrite E1.
  destruct (check_llm_connection_spec I s1) as (s2 & E2 & H2). rewrite E2.
  simpl. eexists. split; [reflexivity |]. congruence.
Qed.

(** X10.  The ingest endpoint never lets an exception through.  It returns
    the response with the next identifier of the sequence and the
    configured dimension (not the length of the embedded vector), or it
    raises an [HTTPException] of status 500 and the committed store is the
    one before the request.  When it returns, the committed store has
    gained exactly the new row or is the one before the request; it has
    gained the row whenever the engine accepts the graph statements. *)
Theorem ingest_endpoint_answers_created_or_500
    (content : string) (metadata : option (gmap string pyval)) (s : State) :
  match RagService.ingest_document W rag content metadata s with
  | (Ok (RagService.Returned resp), s') =>
      RagService.document_id resp = next_id s
      /\ RagService.embedding_dimension resp = embedding_dimensions rag
      /\ exists e,
           embeddings_create W (embedding_model_name rag) content = Ok e
           /\ (documents (committed s')
               = (documents (committed s) ++
                  [{| doc_id := next_id s; doc_content := content;
                      doc_embedding := Some e;
                      doc_metadata := Some (default ∅ metadata) |}])%list
               \/ committed s' = committed s)
           /\ (graph_writes_accepted W ->
               documents (committed s')
               = (documents (committed s) ++
                  [{| doc_id := next_id s; doc_content := content;
                      doc_embedding := Some e;
                      doc_metadata := Some (default ∅ metadata) |}])%list)
  | (Ok (RagService.HTTPException code detail), s') =>
      code = 500%nat /\ committed s' = committed s
  | (Raise _, _) => False
  end.
Proof.
  unfold RagService.ingest_document. unfold_monad.
  match goal with
  | |- context [GraphRAG.ingest_document W rag content metadata ?st] =>
      pose proof (ingest_outcome W rag content metadata st) as H;
      destruct (GraphRAG.ingest_document W rag content metadata st)
        as [[id | err] s1]
  end; simpl.
  - destruct H as (e & He & -> & _ & Hd & Hacc). simpl in *.
    repeat split. exists e. auto.
  - simpl in H. split; [reflexivity | exact H].
Qed.

End EndpointFacts.

Section QueryEndpointFacts.
Variable W : World.
Variable rag : Config.

Lemma query_total (question : string) (top_k : Z) (use_graph : bool) (t : Q)
    (s : State) (qe : list Q) :
  embeddings_create W (embedding_model_name rag) question = Ok qe ->
  storage_fault W (committed s)
    (SelectSimilar qe (embedding_dimensions rag) t top_k) = None ->
  exists r s',
    query W rag question top_k use_graph t s = (Ok r, s')
    /\ sources r
       = map source_of_row
           (select_similar W qe t top_k (documents (committed s))).
Proof.
  intros He Hf. unfold query, _get_embedding, run_select_similar.
  unfold_monad. simpl. rewrite He.
  destruct (negb _); simpl; rewrite Hf; simpl;
    (destruct (select_similar W qe t top_k (documents (committed s)))
       as [|d ds] eqn:Hs; simpl;
     [eexists _, _; split; reflexivity |]);
    (destruct use_graph; simpl;
     [ match goal with
       | |- context [_get_graph_context W ?docs ?st] =>
           destruct (get_graph_context_total W docs st) as (gc & s2 & E & _);
           rewrite E
       end
     | ]);
    match goal with
    | |- context [_generate_answer W rag ?q ?c ?st] =>
        destruct (generate_answer_total W rag q c st) as (a & s3 & E' & _);
        rewrite E'
    end; simpl; eexists _, _; split; reflexivity.
Qed.

(** X11.  The query endpoint answers with status 500 only for failures
    before the generation: when the embedding and the search go through it
    returns a result, whatever the graph store and the chat backend do;
    when the embedding or the search fails it raises an [HTTPException] of
    status 500 that carries the error. *)
Theorem query_endpoint_fails_only_before_generation
    (question : string) (top_k : Z) (use_graph : bool) (t : Q) (s : State) :
  (forall qe,
     embeddings_create W (embedding_model_name rag) question = Ok qe ->
     storage_fault W (committed s)
       (SelectSimilar qe (embedding_dimensions rag) t top_k) = None ->
     exists r s',
       RagService.query_knowledge W rag question top_k use_graph t s
       = (Ok (RagService.Returned r), s')
       /\ sources r
          = map source_of_row
              (select_similar W qe t top_k (documents (committed s))))
  /\ (forall err,
        embeddings_create W (embedding_model_name rag) question = Raise err ->
        exists s',
          RagService.query_knowledge W rag question top_k use_graph t s
          = (Ok (RagService.HTTPException 500
                   ("Ошибка при обработке запроса: Не удалось получить эмбеддинг: "
                      +:+ err)), s'))
  /\ (forall qe err,
        embeddings_create W (embedding_model_name rag) question = Ok qe ->
        storage_fault W (committed s)
          (SelectSimilar qe (embedding_dimensions rag) t top_k) = Some err ->
        exists s',
          RagService.query_knowledge W rag question top_k use_graph t s
          = (Ok (RagService.HTTPException 500
                   ("Ошибка при обработке запроса: " +:+ err)), s')).
Proof.
  split; [| split].
  - intros qe He Hf. unfold RagService.query_knowledge. unfold_monad.
    match goal with
    | |- context [query W rag question top_k use_graph t ?st] =>
        destruct (query_total question top_k use_graph t st qe He Hf)
          as (r & s1 & E & Hsrc);
        rewrite E
    end.
    eexists _, _. split; [reflexivity | exact Hsrc].
  - intros err He. unfold RagService.query_knowledge, query, _get_embedding.
    unfold_monad. simpl. rewrite He. simpl. eexists. reflexivity.
  - intros qe err He Hf.
    unfold RagService.query_knowledge, query, _get_embedding.
    unfold_monad. simpl. rewrite He.
    destruct (negb _); simpl; rewrite Hf; simpl; eexists; reflexivity.
Qed.

(** X12.  The delete endpoint answers a request for an identifier that no
    document has with status 500 (there is no 404): the detail is the
    "not found" text when the storage engine accepted the statement, and
    the committed store is unchanged. *)
Theorem delete_endpoint_answers_500_for_a_missing_document (id : Z) (s : State) :
  (forall d, d ∈ documents (committed s) -> doc_id d <> id) ->
  exists detail s',
    RagService.delete_document W id s
    = (Ok (RagService.HTTPException 500 detail), s')
    /\ committed s' = committed s
    /\ (storage_fault W (committed s) (DeleteDocument id) = None ->
        detail = "Ошибка при удалении документа: Документ с ID "
                   +:+ Text.str_of_Z id +:+ " не найден").
Proof.
  intros Hnone. unfold RagService.delete_document, delete_document,
    run_delete_document. unfold_monad. simpl.
  destruct (storage_fault W (committed s) (DeleteDocument id)); simpl.
  - eexists _, _. split; [reflexivity |]. simpl. split; [reflexivity |].
    intros H. discriminate.
  - rewrite (rowcount_zero id _ Hnone). simpl.
    eexists _, _. split; [reflexivity |]. simpl. auto.
Qed.
End QueryEndpointFacts.

(** ** The lightrag-service *)

Ltac unfold_lr :=
  unfold LightRAGService.bind, LightRAGService.ret, LightRAGService.raise, LightRAGService.try_except, LightRAGService.logger_info, LightRAGService.logger_error,
    LightRAGService.require_instance, LightRAGService.ainsert in *.

Lemma length_lstrip (s : string) :
  (String.length (Text.lstrip s) <= String.length s)%nat.
Proof.
  induction s as [|c s IH]; simpl; [lia |].
  destruct (Text.is_space c); simpl; lia.
Qed.

Lemma length_rstrip (s : string) :
  (String.length (Text.rstrip s) <= String.length s)%nat.
Proof.
  induction s as [|c s IH]; simpl; [lia |].
  destruct (Text.rstrip s); simpl in *; [destruct (Text.is_space c); simpl |]; lia.
Qed.

Lemma length_strip (s : string) :
  (String.length (Text.strip s) <= String.length s)%nat.
Proof.
  unfold Text.strip. pose proof (length_rstrip (Text.lstrip s)).
  pose proof (length_lstrip s). lia.
Qed.

(** X14.  The keyword arguments of the completion call are the caller's
    [kwargs] over the three defaults ([temperature] 0.0, [top_p] 0.95,
    [max_tokens] 2048): a key the caller gives keeps the caller's value,
    the three keys are always present, and [lmstudio_completion_func]
    returns, or raises, what the chat endpoint answers to the model, the
    messages and these arguments. *)
Theorem generation_params_are_kwargs_over_defaults
    (B : LightRAGService.Backend) (settings : LightRAGService.Settings)
    (lower : string -> string) (prompt : string) (system_prompt : option string)
    (kwargs : gmap string LightRAGService.pyarg) (s : LightRAGService.Service) :
  LightRAGService.generation_params kwargs = kwargs ∪ LightRAGService.default_params
  /\ fst (LightRAGService.lmstudio_completion_func B settings lower prompt
            system_prompt kwargs s)
     = LightRAGService.chat_completions_create B
         (LightRAGService.llm_model settings)
         (build_messages lower prompt system_prompt)
         (kwargs ∪ LightRAGService.default_params)
  /\ (forall k v,
        kwargs !! k = Some v ->
        LightRAGService.generation_params kwargs !! k = Some v)
  /\ (forall k,
        k ∈ ["temperature"; "top_p"; "max_tokens"] ->
        is_Some (LightRAGService.generation_params kwargs !! k)).
Proof.
  assert (LightRAGService.generation_params kwargs
          = kwargs ∪ LightRAGService.default_params) as E.
  { unfold LightRAGService.generation_params, LightRAGService.default_params.
    apply map_eq. intros k.
    rewrite !lookup_union, map_lookup_filter.
    destruct (decide (k = "temperature")) as [-> | Ht];
      [| destruct (decide (k = "top_p")) as [-> | Hp];
         [| destruct (decide (k = "max_tokens")) as [-> | Hm]]].
    - destruct (kwargs !! "temperature"); reflexivity.
    - destruct (kwargs !! "top_p"); reflexivity.
    - destruct (kwargs !! "max_tokens"); reflexivity.
    - rewrite !lookup_insert_ne, !lookup_singleton_ne by congruence.
      destruct (kwargs !! k) as [v|] eqn:Hk; simpl; [| reflexivity].
      rewrite option_guard_True; [reflexivity |].
      simpl. now rewrite !lookup_insert_ne, !lookup_singleton_ne by congruence. }
  split; [exact E |]. split.
  - unfold LightRAGService.lmstudio_completion_func. unfold_lr. rewrite E.
    now destruct (LightRAGService.chat_completions_create B _ _ _).
  - rewrite E. split.
    + intros k v Hk. now apply lookup_union_Some_l.
    + intros k Hk. rewrite lookup_union.
      rewrite !elem_of_cons, elem_of_nil in Hk.
      destruct Hk as [-> | [-> | [-> | []]]];
        destruct (kwargs !! _); simpl; eauto.
Qed.

Section HandlerFacts.
Variable B : LightRAGService.Backend.

Lemma insert_each_accepts (i total : nat) (texts index : list string) (s : LightRAGService.Service) :
  LightRAGService.lightrag_instance s = Some index ->
  LightRAGService.accepts_all B index texts ->
  exists s',
    LightRAGService.insert_each B i total texts s = (LightRAGService.Ok tt, s')
    /\ LightRAGService.lightrag_instance s' = Some (index ++ texts)%list.
Proof.
  revert i index s. induction texts as [|text rest IH]; intros i index s Hs Hacc.
  - simpl. unfold_lr. exists s. now rewrite app_nil_r.
  - destruct Hacc as [Hok Hrest]. simpl. unfold_lr. rewrite Hs, Hok. simpl.
    match goal with
    | |- context [LightRAGService.insert_each B (S i) total rest ?st] =>
        destruct (IH (S i) (index ++ [text])%list st eq_refl Hrest) as (s' & E & Hi)
    end.
    rewrite E. exists s'. split; [reflexivity |].
    now rewrite Hi, <- app_assoc.
Qed.

Lemma insert_each_stops (i total : nat) (pre post index : list string)
    (bad : string) (e : LightRAGService.exc) (s : LightRAGService.Service) :
  LightRAGService.lightrag_instance s = Some index ->
  LightRAGService.accepts_all B index pre ->
  LightRAGService.ainsert_fault B (index ++ pre)%list bad = Some e ->
  exists s',
    LightRAGService.insert_each B i total (pre ++ bad :: post) s = (LightRAGService.Raise e, s')
    /\ LightRAGService.lightrag_instance s' = Some (index ++ pre)%list.
Proof.
  revert i index s. induction pre as [|text rest IH]; intros i index s Hs Hacc Hbad.
  - rewrite app_nil_r in Hbad. simpl. unfold_lr. rewrite Hs, Hbad.
    exists s. now rewrite app_nil_r.
  - destruct Hacc as [Hok Hrest]. simpl. unfold_lr. rewrite Hs, Hok. simpl.
    match goal with
    | |- context [LightRAGService.insert_each B (S i) total _ ?st] =>
        destruct (IH (S i) (index ++ [text])%list st eq_refl Hrest) as (s' & E & Hi)
    end.
    { now rewrite <- app_assoc. }
    rewrite E. exists s'. split; [reflexivity |].
    now rewrite Hi, <- app_assoc.
Qed.

(** X15.  A batch is not atomic: when the index accepts the first texts of
    the list and refuses the next one, [insert_batch_documents] raises an
    [HTTPException] of status 500 and the texts before the refused one stay
    indexed; the ones after it are not tried. *)
Theorem batch_keeps_the_texts_before_the_failure
    (pre post index : list string) (bad : string) (e : LightRAGService.exc) (s : LightRAGService.Service) :
  LightRAGService.lightrag_instance s = Some index ->
  LightRAGService.accepts_all B index pre ->
  LightRAGService.ainsert_fault B (index ++ pre)%list bad = Some e ->
  exists s',
    LightRAGService.insert_batch_documents B (pre ++ bad :: post) s
    = (LightRAGService.Raise (LightRAGService.HTTPException 500
                  ("Ошибка при пакетной индексации: " +:+ LightRAGService.str_of_exc B e)), s')
    /\ LightRAGService.lightrag_instance s' = Some (index ++ pre)%list.
Proof.
  intros Hs Hacc Hbad. unfold LightRAGService.insert_batch_documents. unfold_lr. rewrite Hs.
  match goal with
  | |- context [LightRAGService.insert_each B 1 ?n _ ?st] =>
      destruct (insert_each_stops 1 n pre post index bad e st Hs Hacc Hbad)
        as (s' & E & Hi)
  end.
  rewrite E. simpl. eexists. split; [reflexivity |]. exact Hi.
Qed.

(** X16.  When the index accepts every text, [insert_batch_documents]
    indexes them all, in the order of the list and as they are (no strip,
    no check for an empty text), and counts them. *)
Theorem batch_indexes_every_text_in_order
    (texts index : list string) (s : LightRAGService.Service) :
  LightRAGService.lightrag_instance s = Some index ->
  LightRAGService.accepts_all B index texts ->
  exists s',
    LightRAGService.insert_batch_documents B texts s
    = (LightRAGService.Ok {| LightRAGService.batch_status := "success";
               LightRAGService.batch_message := "Успешно проиндексировано "
                                    +:+ Text.str_of_nat (length texts)
                                    +:+ " документов";
               LightRAGService.count := length texts |}, s')
    /\ LightRAGService.lightrag_instance s' = Some (index ++ texts)%list.
Proof.
  intros Hs Hacc. unfold LightRAGService.insert_batch_documents. unfold_lr. rewrite Hs.
  match goal with
  | |- context [LightRAGService.insert_each B 1 ?n _ ?st] =>
      destruct (insert_each_accepts 1 n texts index st Hs Hacc) as (s' & E & Hi)
  end.
  rewrite E. eexists. split; [reflexivity |]. exact Hi.
Qed.

(** X17.  A document whose text strips to nothing is answered with status
    500, not 400: the [HTTPException] of status 400 is raised inside the
    [try] block, caught by its [except Exception] clause and wrapped.
    Nothing is indexed. *)
Theorem blank_document_is_answered_500 (text : string) (index : list string)
    (s : LightRAGService.Service) :
  LightRAGService.lightrag_instance s = Some index ->
  Text.strip text = "" ->
  exists s',
    LightRAGService.insert_document B text s
    = (LightRAGService.Raise
         (LightRAGService.HTTPException 500
            ("Ошибка при индексации документа: "
               +:+ LightRAGService.str_of_http_exception B 400
                     "Текст документа не может быть пустым")), s')
    /\ LightRAGService.lightrag_instance s' = Some index.
Proof.
  intros Hs Hblank. unfold LightRAGService.insert_document. unfold_lr. rewrite Hs, Hblank.
  simpl. eexists. split; [reflexivity | exact Hs].
Qed.

(** X18.  [insert_document] indexes the stripped text but reports the
    length of the text as received, which is at least the length of what
    was indexed. *)
Theorem document_is_indexed_stripped (text : string) (index : list string)
    (s : LightRAGService.Service) :
  LightRAGService.lightrag_instance s = Some index ->
  Text.strip text <> "" ->
  LightRAGService.ainsert_fault B index (Text.strip text) = None ->
  exists s',
    LightRAGService.insert_document B text s
    = (LightRAGService.Ok {| LightRAGService.status := "success";
               LightRAGService.message := "Документ успешно проиндексирован";
               LightRAGService.document_length := String.length text |}, s')
    /\ LightRAGService.lightrag_instance s' = Some (index ++ [Text.strip text])%list
    /\ (String.length (Text.strip text) <= String.length text)%nat.
Proof.
  intros Hs Hne Hok. unfold LightRAGService.insert_document. unfold_lr. rewrite Hs.
  rewrite bool_decide_eq_false_2 by exact Hne. simpl. rewrite Hs, Hok. simpl.
  eexists. split; [reflexivity |]. split; [reflexivity | apply length_strip].
Qed.
End HandlerFacts.

(** ** The further properties on concrete inputs *)

Lemma ingest_is_all_or_nothing_witness :
  graph_writes_accepted healthy
  /\ (exists s',
        ingest_document healthy config "hello" None
          (initial_state empty_database 1) = (Ok 1%Z, s')
        /\ map doc_id (documents (committed s')) = [1%Z])
  /\ (exists err s',
        ingest_document embeddings_down config "hello" None
          (initial_state empty_database 1) = (Raise err, s')
        /\ committed s' = empty_database).
Proof.
  assert (graph_writes_accepted healthy) as Hacc
    by (intros db q _; reflexivity).
  split; [exact Hacc |]. split.
  - eexists. split; [vm_compute; reflexivity |].
    edestruct (proj1 (ingest_is_all_or_nothing healthy config "hello" None
                        (initial_state empty_database 1)))
      as (e & _ & _ & _ & Hd).
    + vm_compute; reflexivity.
    + rewrite (Hd Hacc). reflexivity.
  - eexists _, _. split; [vm_compute; reflexivity |].
    eapply (proj2 (ingest_is_all_or_nothing embeddings_down config "hello" None
                     (initial_state empty_database 1))).
    vm_compute; reflexivity.
Defined.

Lemma ingested_document_is_retrieved_witness :
  graph_writes_accepted healthy
  /\ exists s1 r s2,
       ingest_document healthy config "Machine learning is a branch of AI"
         (Some textbook) (initial_state empty_database 1) = (Ok 1%Z, s1)
       /\ query healthy config "What is machine learning?" 1 false 0 s1
          = (Ok r, s2)
       /\ {| src_id := 1;
             src_content := Text.take 300 "Machine learning is a branch of AI";
             src_similarity :=
               Num.round4 (1 - cosine_distance healthy [1%Q; 0%Q] [1%Q; 0%Q]);
             src_metadata := Some (default ∅ (Some textbook)) |} ∈ sources r.
Proof.
  assert (graph_writes_accepted healthy) as Hacc
    by (intros db q _; reflexivity).
  split; [exact Hacc |].
  eexists _, _, _.
  split; [vm_compute; reflexivity |].
  split; [vm_compute; reflexivity |].
  eapply (ingested_document_is_retrieved healthy config
            "Machine learning is a branch of AI" "What is machine learning?"
            (Some textbook) 1 false 0 (initial_state empty_database 1)).
  - exact Hacc.
  - vm_compute; reflexivity.
  - vm_compute; reflexivity.
  - reflexivity.
  - reflexivity.
  - unfold Qle. simpl. lia.
  - simpl. lia.
Defined.

Lemma deleted_document_is_not_retrieved_witness :
  exists s1 r s2,
    delete_document healthy 1 three_docs = (Ok tt, s1)
    /\ query healthy config "q" 5 false 0 s1 = (Ok r, s2)
    /\ map src_id (sources r) = [3%Z; 2%Z]
    /\ forall src, src ∈ sources r -> src_id src <> 1%Z.
Proof.
  eexists _, _, _.
  split; [vm_compute; reflexivity |].
  split; [vm_compute; reflexivity |].
  split; [reflexivity |].
  eapply (deleted_document_is_not_retrieved healthy config 1 "q" 5 false 0
            three_docs).
  - vm_compute; reflexivity.
  - vm_compute; reflexivity.
Defined.

Lemma query_survives_graph_lookup_failure_witness :
  storage_fault graph_down (committed one_doc)
    (CypherMatchRelated (map row_id [hello_row]))
  = Some "function cypher(unknown, unknown) does not exist"
  /\ exists s',
       query graph_down config "q" 5 true 0 one_doc
       = (Ok {| answer := "ok"; sources := [source_of_row hello_row];
                graph_context := None |}, s').
Proof.
  split; [reflexivity |].
  destruct (query_survives_graph_lookup_failure graph_down config "q" 5 0
              one_doc [1%Q; 0%Q] hello_row []
              "function cypher(unknown, unknown) does not exist" "ok"
              eq_refl eq_refl eq_refl eq_refl (fun _ => eq_refl))
    as (s' & E & _).
  exists s'. exact E.
Defined.

Lemma no_relationships_without_edges_witness :
  graph_edges (committed after_ingest) = []
  /\ exists r s' g,
       query healthy config "What is machine learning?" 1 true 0 after_ingest
       = (Ok r, s')
       /\ graph_context r = Some g
       /\ has_relationships g = false.
Proof.
  split; [reflexivity |].
  eexists _, _, _.
  split; [vm_compute; reflexivity |].
  split; [reflexivity |].
  eapply (proj2 (no_relationships_without_edges healthy config "x"
                   "What is machine learning?" None 1 true 0 after_ingest
                   eq_refl)).
  - vm_compute; reflexivity.
  - reflexivity.
Defined.

Lemma sources_are_previews_of_stored_documents_witness :
  exists r s',
    query healthy config "q" 2 false (1 # 2) three_docs = (Ok r, s')
    /\ map src_content (sources r) = ["alpha"; "gamma"]
    /\ forall src,
         src ∈ sources r ->
         (String.length (src_content src) <= 300)%nat
         /\ exists d,
              d ∈ documents (committed three_docs)
              /\ src_id src = doc_id d
              /\ src_content src = Text.take 300 (doc_content d)
              /\ src_metadata src = doc_metadata d.
Proof.
  eexists _, _.
  split; [vm_compute; reflexivity |].
  split; [reflexivity |].
  eapply (sources_are_previews_of_stored_documents healthy config "q" 2 false
            (1 # 2) three_docs).
  vm_compute; reflexivity.
Defined.

Lemma initialize_needs_the_database_only_witness :
  Lifecycle.models_list Lifecycle.lmstudio_down = Raise "Connection error."
  /\ (exists s',
        Lifecycle.initialize Lifecycle.lmstudio_down
          (initial_state empty_database 1) = (Ok tt, s'))
  /\ (exists s',
        Lifecycle.initialize Lifecycle.database_down
          (initial_state empty_database 1)
        = (Raise Lifecycle.database_unreachable, s')).
Proof.
  split; [reflexivity |]. split.
  - exact (proj1 (initialize_needs_the_database_only Lifecycle.lmstudio_down
                    (initial_state empty_database 1) eq_refl) eq_refl).
  - destruct (proj2 (initialize_needs_the_database_only Lifecycle.database_down
                       (initial_state empty_database 1) eq_refl)
                "connection refused" eq_refl) as (s' & E & _).
    exists s'. exact E.
Defined.

Lemma delete_endpoint_answers_500_for_a_missing_document_witness :
  exists s',
    RagService.delete_document healthy 7 three_docs
    = (Ok (RagService.HTTPException 500
             "Ошибка при удалении документа: Документ с ID 7 не найден"), s')
    /\ committed s' = committed three_docs.
Proof.
  destruct (delete_endpoint_answers_500_for_a_missing_document healthy 7
              three_docs) as (detail & s' & E & Hc & Hd).
  - intros d Hd. simpl in Hd.
    rewrite !elem_of_cons, elem_of_nil in Hd.
    destruct Hd as [-> | [-> | [-> | []]]]; discriminate.
  - exists s'. split; [| exact Hc]. rewrite E, (Hd eq_refl). reflexivity.
Defined.

Lemma query_endpoint_fails_only_before_generation_witness :
  (exists r s',
     RagService.query_knowledge chat_down config "q" 5 false 0 one_doc
     = (Ok (RagService.Returned r), s')
     /\ sources r = [source_of_row hello_row])
  /\ (exists s',
        RagService.query_knowledge embeddings_down config "q" 5 false 0 one_doc
        = (Ok (RagService.HTTPException 500
                 "Ошибка при обработке запроса: Не удалось получить эмбеддинг: Request timed out."),
           s')).
Proof.
  split.
  - exact (proj1 (query_endpoint_fails_only_before_generation chat_down config
                    "q" 5 false 0 one_doc) [1%Q; 0%Q] eq_refl eq_refl).
  - exact (proj1 (proj2 (query_endpoint_fails_only_before_generation
                           embeddings_down config "q" 5 false 0 one_doc))
             "Request timed out." eq_refl).
Defined.

Lemma generation_params_are_kwargs_over_defaults_witness :
  let kwargs : gmap string LightRAGService.pyarg :=
    {[ "temperature" := LightRAGService.Float (7 # 10); "stream" := LightRAGService.Other "False" ]} in
  kwargs !! "temperature" = Some (LightRAGService.Float (7 # 10))
  /\ LightRAGService.generation_params kwargs !! "temperature" = Some (LightRAGService.Float (7 # 10))
  /\ is_Some (LightRAGService.generation_params kwargs !! "max_tokens").
Proof.
  intros kwargs. split; [reflexivity |].
  destruct (generation_params_are_kwargs_over_defaults LightRAGService.picky
              {| LightRAGService.llm_model := "llama-3.2-3b-instruct";
                 LightRAGService.embedding_model := "nomic" |}
              Text.ascii_lower "p" None kwargs LightRAGService.running)
    as (_ & _ & Hk & Hd).
  split.
  - apply Hk. reflexivity.
  - apply Hd. set_solver.
Defined.

Lemma batch_keeps_the_texts_before_the_failure_witness :
  LightRAGService.accepts_all LightRAGService.picky [] ["a"; " "]
  /\ exists s',
       LightRAGService.insert_batch_documents LightRAGService.picky (["a"; " "] ++ "bad" :: ["c"]) LightRAGService.running
       = (LightRAGService.Raise (LightRAGService.HTTPException 500
                     "Ошибка при пакетной индексации: extraction failed"), s')
       /\ LightRAGService.lightrag_instance s' = Some ["a"; " "].
Proof.
  assert (LightRAGService.accepts_all LightRAGService.picky [] ["a"; " "]) as Hacc
    by (simpl; auto).
  split; [exact Hacc |].
  exact (batch_keeps_the_texts_before_the_failure LightRAGService.picky ["a"; " "] ["c"] []
           "bad" (LightRAGService.Error "extraction failed") LightRAGService.running eq_refl Hacc eq_refl).
Defined.

Lemma batch_indexes_every_text_in_order_witness :
  exists s',
    LightRAGService.insert_batch_documents LightRAGService.picky ["a"; ""] LightRAGService.running
    = (LightRAGService.Ok {| LightRAGService.batch_status := "success";
               LightRAGService.batch_message := "Успешно проиндексировано 2 документов";
               LightRAGService.count := 2 |}, s')
    /\ LightRAGService.lightrag_instance s' = Some ["a"; ""].
Proof.
  exact (batch_indexes_every_text_in_order LightRAGService.picky ["a"; ""] [] LightRAGService.running
           eq_refl (conj eq_refl (conj eq_refl Logic.I))).
Defined.

Lemma blank_document_is_answered_500_witness :
  Text.strip "   " = ""
  /\ exists s',
       LightRAGService.insert_document LightRAGService.picky "   " LightRAGService.running
       = (LightRAGService.Raise
            (LightRAGService.HTTPException 500
               "Ошибка при индексации документа: 400: Текст документа не может быть пустым"),
          s')
       /\ LightRAGService.lightrag_instance s' = Some [].
Proof.
  split; [reflexivity |].
  exact (blank_document_is_answered_500 LightRAGService.picky "   " [] LightRAGService.running
           eq_refl eq_refl).
Defined.

Lemma document_is_indexed_stripped_witness :
  Text.strip "  hello " <> ""
  /\ exists s',
       LightRAGService.insert_document LightRAGService.picky "  hello " LightRAGService.running
       = (LightRAGService.Ok {| LightRAGService.status := "success";
                  LightRAGService.message := "Документ успешно проиндексирован";
                  LightRAGService.document_length := 8 |}, s')
       /\ LightRAGService.lightrag_instance s' = Some ["hello"].
Proof.
  split; [discriminate |].
  destruct (document_is_indexed_stripped LightRAGService.picky "  hello " [] LightRAGService.running
              eq_refl ltac:(discriminate) eq_refl) as (s' & E & Hi & _).
  exists s'. split; [exact E | exact Hi].
Defined.
